(** * ResumeGuide: the agent adapter (utils.py) and the tool functions (app.py)

    A shallow embedding of the two Python modules and the properties the
    specification states about them.

    Conventions of the embedding.
    - A Python [str] is a [string]: the bytes of its UTF-8 encoding.  The
      builtins that consult Unicode tables ([str.lower], [str.isdigit],
      [str.strip], [repr]) are defined on the ASCII range and leave the
      bytes of other code points alone; on ASCII text they are Python's.
    - Code that may raise runs in a state-and-exception monad [M S]: a
      function from the state to an outcome and the state it leaves behind,
      so that what was mutated before an exception stays mutated.
    - [print] appends a line to the [stdout] component of the state.
    - What the repository imports and does not define (the interpreter's
      [hash], the SDK's runner and the model behind it, the file an image
      path names) is the interface [External]. *)

From stdpp Require Import base option gmap strings list fin_maps.
From Stdlib Require Import Ascii String ZArith DecimalString.
From Stdlib Require DecimalZ.

Open Scope string_scope.

(* ===================================================================== *)
(** * The Python fragment the two modules use *)
(* ===================================================================== *)

Module Py.

(** The exception classes that occur. *)
Inductive exn : Type :=
  | ValueError (msg : string)
  | TypeError (msg : string)
  | KeyError (key : string)
  | AttributeError (msg : string)
  | RuntimeError (msg : string)
  | OtherError (msg : string).

Inductive outcome (A : Type) : Type :=
  | Ok (a : A)
  | Raise (e : exn).
Arguments Ok {A} a.
Arguments Raise {A} e.

(** State and exceptions. *)
Definition M (S A : Type) : Type := S → outcome A * S.

Definition ret {S A} (a : A) : M S A := λ s, (Ok a, s).

Definition bind {S A B} (m : M S A) (k : A → M S B) : M S B :=
  λ s, match m s with
       | (Ok a, s') => k a s'
       | (Raise e, s') => (Raise e, s')
       end.

Definition raise {S A} (e : exn) : M S A := λ s, (Raise e, s).

Definition get {S} : M S S := λ s, (Ok s, s).

Definition modify {S} (f : S → S) : M S unit := λ s, (Ok tt, f s).

(** [try: m / except <handled>: h]: the handler runs, in the state the
    body left, on the exceptions [handles] selects; the others propagate. *)
Definition try_except {S A} (m : M S A) (handles : exn → bool) (h : M S A)
  : M S A :=
  λ s, match m s with
       | (Ok a, s') => (Ok a, s')
       | (Raise e, s') => if handles e then h s' else (Raise e, s')
       end.

Definition is_RuntimeError (e : exn) : bool :=
  match e with RuntimeError _ => true | _ => false end.

(** [except Exception] and the bare [except]. *)
Definition any_exception (e : exn) : bool := true.

Fixpoint foldM {S A B} (f : B → A → M S B) (b : B) (l : list A) : M S B :=
  match l with
  | [] => ret b
  | x :: l' => bind (f b x) (λ b', foldM f b' l')
  end.

(** [for x in l: body] *)
Definition for_each {S A} (l : list A) (body : A → M S unit) : M S unit :=
  foldM (λ _ x, body x) tt l.

#[global] Instance M_ret {S} : MRet (M S) := λ A, @ret S A.
#[global] Instance M_bind {S} : MBind (M S) := λ A B k m, @bind S A B m k.

(** ** [str] *)

Definition ord (c : ascii) : N := N_of_ascii c.

(** [c.lower()] on one character. *)
Definition lower_char (c : ascii) : ascii :=
  if ((65 <=? ord c) && (ord c <=? 90))%N
  then ascii_of_N (ord c + 32) else c.

(** [s.lower()] *)
Fixpoint lower (s : string) : string :=
  match s with
  | EmptyString => EmptyString
  | String c s' => String (lower_char c) (lower s')
  end.

(** [c.isdigit()] *)
Definition isdigit (c : ascii) : bool :=
  ((48 <=? ord c) && (ord c <=? 57))%N.

(** [c.isspace()]: tab, newline, vertical tab, form feed, carriage return,
    the four separators 0x1c-0x1f and the space. *)
Definition isspace (c : ascii) : bool :=
  ((9 <=? ord c) && (ord c <=? 13) || (28 <=? ord c) && (ord c <=? 32))%N.

Fixpoint lstrip (s : string) : string :=
  match s with
  | EmptyString => EmptyString
  | String c s' => if isspace c then lstrip s' else s
  end.

Fixpoint rstrip (s : string) : string :=
  match s with
  | EmptyString => EmptyString
  | String c s' =>
      match rstrip s' with
      | EmptyString => if isspace c then EmptyString else String c EmptyString
      | r => String c r
      end
  end.

(** [s.strip()] *)
Definition strip (s : string) : string := rstrip (lstrip s).

(** [s.split(sep)] for a one-character separator: never an empty list. *)
Fixpoint split (sep : ascii) (s : string) : list string :=
  match s with
  | EmptyString => [EmptyString]
  | String c s' =>
      if Ascii.eqb c sep then EmptyString :: split sep s'
      else match split sep s' with
           | h :: t => String c h :: t
           | [] => [String c EmptyString]
           end
  end.

(** [sep.join(l)] *)
Definition join (sep : string) (l : list string) : string :=
  String.concat sep l.

(** [needle in hay] on two strings. *)
Fixpoint contains (needle hay : string) : bool :=
  String.prefix needle hay ||
  match hay with
  | EmptyString => false
  | String _ hay' => contains needle hay'
  end.

(** [any(p(c) for c in s)] *)
Definition any_char (p : ascii → bool) (s : string) : bool :=
  existsb p (list_ascii_of_string s).

(** [len(s)] *)
Definition len (s : string) : nat := String.length s.

(** [str(n)] for an [int]. *)
Definition str_of_int (n : Z) : string :=
  NilZero.string_of_int (Z.to_int n).

(** ** [repr] *)

Definition hex_digit (n : N) : ascii :=
  if (n <? 10)%N then ascii_of_N (48 + n) else ascii_of_N (87 + n).

Definition repr_char (quote : ascii) (c : ascii) : string :=
  if Ascii.eqb c quote || Ascii.eqb c "\"%char
  then String "\"%char (String c EmptyString)
  else if (ord c =? 9)%N then "\t"
  else if (ord c =? 10)%N then "\n"
  else if (ord c =? 13)%N then "\r"
  else if ((ord c <? 32) || (ord c =? 127))%N
  then String "\"%char (String "x"%char
         (String (hex_digit (ord c / 16)) (String (hex_digit (ord c mod 16))
            EmptyString)))
  else String c EmptyString.

Fixpoint repr_chars (quote : ascii) (s : string) : string :=
  match s with
  | EmptyString => EmptyString
  | String c s' => repr_char quote c ++ repr_chars quote s'
  end.

(** [repr(s)] for a [str]: single quotes, unless the text holds a single
    quote and no double quote. *)
Definition repr_str (s : string) : string :=
  let quote : ascii :=
    if contains "'" s && negb (contains (String (ascii_of_N 34) EmptyString) s)
    then ascii_of_N 34 else "'"%char in
  String quote (repr_chars quote s ++ String quote EmptyString).

(** ** Values held in the profile: [str], [list] and [dict] *)

#[warnings="-register-all"]
Inductive pyval : Type :=
  | VStr (s : string)
  | VList (l : list pyval)
  | VDict (items : list (string * pyval)).

(** A [dict] with [str] keys, as the list of its items in insertion order. *)
Definition dict : Type := list (string * pyval).

Fixpoint dict_get (k : string) (d : dict) : option pyval :=
  match d with
  | [] => None
  | (k', v) :: d' => if String.eqb k k' then Some v else dict_get k d'
  end.

(** [k in d] *)
Definition dict_contains (k : string) (d : dict) : bool :=
  match dict_get k d with Some _ => true | None => false end.

(** [d[k] = v]: an existing key keeps its place, a new one goes last. *)
Fixpoint dict_set (k : string) (v : pyval) (d : dict) : dict :=
  match d with
  | [] => [(k, v)]
  | (k', v') :: d' =>
      if String.eqb k k' then (k', v) :: d' else (k', v') :: dict_set k v d'
  end.

Fixpoint repr (v : pyval) : string :=
  match v with
  | VStr s => repr_str s
  | VList l => "[" ++ join ", " (map repr l) ++ "]"
  | VDict items =>
      "{" ++ join ", "
               (map (λ kv, let '(k, x) := kv in repr_str k ++ ": " ++ repr x)
                    items) ++ "}"
  end.

End Py.

(* ===================================================================== *)
(** * utils.py: credentials and the agent adapter *)
(* ===================================================================== *)

Module Utils.
Import Py.

(** ** What [json.load] returns *)

(** Numbers are the whole ones. *)
#[warnings="-register-all"]
Inductive json : Type :=
  | JNull
  | JBool (b : bool)
  | JNum (n : Z)
  | JStr (s : string)
  | JArr (l : list json)
  | JObj (members : list (string * json)).

(** [bool(v)]; [None] is [JNull]. *)
Definition truthy (v : json) : bool :=
  match v with
  | JNull => false
  | JBool b => b
  | JNum n => negb (n =? 0)%Z
  | JStr s => negb (String.eqb s "")
  | JArr l => match l with [] => false | _ :: _ => true end
  | JObj members => match members with [] => false | _ :: _ => true end
  end.

Fixpoint member (k : string) (members : list (string * json)) : option json :=
  match members with
  | [] => None
  | (k', v) :: rest => if String.eqb k k' then Some v else member k rest
  end.

(** [data.get(k)]: only a [dict] has [get]. *)
Definition json_get (data : json) (k : string) : outcome json :=
  match data with
  | JObj members => Ok (default JNull (member k members))
  | _ => Raise (AttributeError "object has no attribute 'get'")
  end.

(** [v == s] for a [str] [s]. *)
Definition eq_str (v : json) (s : string) : bool :=
  match v with JStr s' => String.eqb s' s | _ => false end.

(** ** What the SDK delivers: events, their content and its parts *)

Record FunctionCall : Type := {
  fc_name : string;
  (** the text [{fc.args}] formats to *)
  fc_args : string;
}.

(** The loop tests each field with [hasattr(x, f) and x.f]: a field is
    [None] here when the attribute is missing or holds [None], and an
    object the SDK builds counts as true. *)
Record Part : Type := {
  function_call : option FunctionCall;
  text : option string;
}.

(** [parts] is tested with [hasattr] alone and then iterated: [None] is
    the missing attribute, and what is there is a list.  A content whose
    [parts] cannot be iterated makes the loop raise; such a turn is one that
    ends in an exception (see [run_turn]). *)
Record Content : Type := {
  parts : option (list Part);
}.

Record Action : Type := {
  function_calls : option (list FunctionCall);
}.

Record Event : Type := {
  content : option Content;
  actions : option (list Action);
}.

(** ** The SDK objects an adapter holds *)

Record ADKAgent : Type := {
  adk_name : string;
  adk_model : string;
  adk_instruction : string;
  adk_tools : list string;
}.

Record Runner : Type := {
  runner_agent : ADKAgent;
  runner_app_name : string;
}.

(** One entry of a session: the user's message or an event of the reply. *)
Inductive HistoryItem : Type :=
  | UserMessage (message : string)
  | ModelEvent (event : Event).

(** ** What is imported, not defined here *)

Class External : Type := {
  (** [hash(s)] for a [str]: salted per process, one function within it *)
  hash : string → Z;
  (** one turn of the runner against the model: the events it yields for
      this agent, this session history and this message, and the exception
      that ends the stream, if one does *)
  run_turn : ADKAgent → list HistoryItem → string → list Event * option exn;
  (** [open(path, "rb").read()] *)
  open_rb : string → outcome string;
}.

(** ** The process *)

Inductive loop_state : Type := NoLoop | Idle | Running.

(** A key of the session service: application, user, session. *)
Definition session_key : Type := string * string * string.

(** One call of [Runner.run_async]: user, session, message. *)
Record RunnerCall : Type := {
  call_user_id : string;
  call_session_id : string;
  call_message : string;
}.

Record World : Type := {
  (** the paths [glob.glob("*.json")] lists, in its order, each with what
      [open] and [json.load] give for it *)
  cwd_json : list (string * outcome json);
  (** [os.environ] *)
  environ : gmap string string;
  stdout : list string;
  (** [Agent._session_service]: [None] until the first construction *)
  _session_service : option (gmap session_key (list HistoryItem));
  (** the current thread's event loop *)
  event_loop : loop_state;
  (** the calls the runner has received, oldest first *)
  runner_calls : list RunnerCall;
}.

Definition set_environ (f : gmap string string → gmap string string)
    (w : World) : World :=
  {| cwd_json := cwd_json w; environ := f (environ w); stdout := stdout w;
     _session_service := _session_service w; event_loop := event_loop w;
     runner_calls := runner_calls w |}.

Definition set_stdout (f : list string → list string) (w : World) : World :=
  {| cwd_json := cwd_json w; environ := environ w; stdout := f (stdout w);
     _session_service := _session_service w; event_loop := event_loop w;
     runner_calls := runner_calls w |}.

Definition set_session_service
    (v : option (gmap session_key (list HistoryItem))) (w : World) : World :=
  {| cwd_json := cwd_json w; environ := environ w; stdout := stdout w;
     _session_service := v; event_loop := event_loop w;
     runner_calls := runner_calls w |}.

Definition set_event_loop (l : loop_state) (w : World) : World :=
  {| cwd_json := cwd_json w; environ := environ w; stdout := stdout w;
     _session_service := _session_service w; event_loop := l;
     runner_calls := runner_calls w |}.

Definition set_runner_calls (f : list RunnerCall → list RunnerCall)
    (w : World) : World :=
  {| cwd_json := cwd_json w; environ := environ w; stdout := stdout w;
     _session_service := _session_service w; event_loop := event_loop w;
     runner_calls := f (runner_calls w) |}.

(** [print(line)] *)
Definition print (line : string) : M World unit :=
  modify (set_stdout (λ out, (out ++ [line])%list)).

(** [os.environ[k] = v] *)
Definition setenv (k v : string) : M World unit :=
  modify (set_environ (insert k v)).

(** [os.getenv(k, dflt)] *)
Definition getenv (k dflt : string) : M World string :=
  w ← get; mret (default dflt (environ w !! k)).

(** [str(e)] *)
Definition exn_str (e : exn) : string :=
  match e with
  | ValueError msg | TypeError msg | AttributeError msg | RuntimeError msg
  | OtherError msg => msg
  | KeyError key => repr_str key
  end.

(** ** Credentials *)

(** The body of the [try] in [_get_project_id] for one file: [Some] when the
    function returns from inside the loop. *)
Definition probe (f : string) (loaded : outcome json)
  : M World (option (json * option string)) :=
  match loaded with
  | Raise e => raise e
  | Ok data =>
      match json_get data "type" with
      | Raise e => raise e
      | Ok ty =>
          if eq_str ty "service_account"
          then match json_get data "project_id" with
               | Raise e => raise e
               | Ok project_id => mret (Some (project_id, Some f))
               end
          else mret None
      end
  end.

Fixpoint scan (json_files : list (string * outcome json))
  : M World (json * option string) :=
  match json_files with
  | [] => mret (JNull, None)
  | (f, loaded) :: rest =>
      found ← try_except (probe f loaded) any_exception (mret None);
      match found with
      | Some r => mret r
      | None => scan rest
      end
  end.

Definition _get_project_id : M World (json * option string) :=
  w ← get; scan (cwd_json w).

Definition _setup_vertex_auth : M World (string * string) :=
  '(project_id, sa_file) ← _get_project_id;
  (if negb (truthy project_id)
   then raise (ValueError
     "⚠️ No service account JSON found! Place your GCP JSON in this folder.")
   else mret tt);;
  match sa_file with
  | Some (String _ _ as f) => setenv "GOOGLE_APPLICATION_CREDENTIALS" f
  | _ => mret tt
  end;;
  location ← getenv "GOOGLE_CLOUD_LOCATION" "us-central1";
  setenv "GOOGLE_GENAI_USE_VERTEXAI" "true";;
  (* os.environ takes a str only *)
  project ← match project_id with
            | JStr s => mret s
            | _ => raise (TypeError "str expected")
            end;
  setenv "GOOGLE_CLOUD_PROJECT" project;;
  setenv "GOOGLE_CLOUD_LOCATION" location;;
  print ("🔌 Connecting to Vertex AI (Project: " ++ project ++ ", Loc: " ++
         location ++ ")...");;
  print ("🔑 Using credentials: " ++ default "None" sa_file);;
  mret (project, location).

(** ** The adapter *)

Record Agent : Type := {
  (** [id(self)]: fixed for the life of the object *)
  id : Z;
  name : string;
  model_name : string;
  system_instruction : string;
  tools : list string;
  _session_created : bool;
  _user_id : string;
  _session_id : string;
  _agent : ADKAgent;
  _runner : Runner;
}.

Definition _app_name : string := "resume_guide".

Definition set__session_created (b : bool) (a : Agent) : Agent :=
  {| id := id a; name := name a; model_name := model_name a;
     system_instruction := system_instruction a; tools := tools a;
     _session_created := b; _user_id := _user_id a;
     _session_id := _session_id a; _agent := _agent a;
     _runner := _runner a |}.

Definition set__session_id (sid : string) (a : Agent) : Agent :=
  {| id := id a; name := name a; model_name := model_name a;
     system_instruction := system_instruction a; tools := tools a;
     _session_created := _session_created a; _user_id := _user_id a;
     _session_id := sid; _agent := _agent a; _runner := _runner a |}.

(** [Agent(name, model, instruction, tools)], on the object the interpreter
    allocated at [self_id].  The SDK constructors ([Gemini], the agent, the
    runner) are taken to accept their arguments. *)
Definition __init__ (self_id : Z) (name model instruction : string)
    (tools : option (list string)) : M World Agent :=
  let tools := default [] tools in
  '(project_id, location) ← _setup_vertex_auth;
  w ← get;
  match _session_service w with
  | None => modify (set_session_service (Some ∅))
  | Some _ => mret tt
  end;;
  let agent := {| adk_name := name; adk_model := model;
                  adk_instruction := instruction; adk_tools := tools |} in
  mret {| id := self_id; name := name; model_name := model;
          system_instruction := instruction; tools := tools;
          _session_created := false;
          _user_id := "user_" ++ name;
          _session_id := "session_" ++ name ++ "_" ++ str_of_int self_id;
          _agent := agent;
          _runner := {| runner_agent := agent;
                        runner_app_name := _app_name |} |}.

(** A method runs on the object and the process. *)
Definition Self : Type := Agent * World.

Definition self : M Self Agent := λ st, (Ok st.1, st).

Definition update_self (f : Agent → Agent) : M Self unit :=
  modify (λ st : Self, (f st.1, st.2)).

(** Run on the process what does not touch the object. *)
Definition on_world {A} (m : M World A) : M Self A :=
  λ st, let '(r, w) := m st.2 in (r, (st.1, w)).

(** ** The in-memory session service *)

Definition get_session (key : session_key)
  : M World (option (list HistoryItem)) :=
  w ← get;
  match _session_service w with
  | None =>
      raise (AttributeError "'NoneType' object has no attribute 'get_session'")
  | Some sessions => mret (sessions !! key)
  end.

Definition create_session (key : session_key) : M World unit :=
  w ← get;
  match _session_service w with
  | None =>
      raise (AttributeError
               "'NoneType' object has no attribute 'create_session'")
  | Some sessions => modify (set_session_service (Some (<[key := []]> sessions)))
  end.

Definition key_of (a : Agent) : session_key :=
  (_app_name, _user_id a, _session_id a).

Definition _ensure_session_async : M Self unit :=
  a ← self;
  if _session_created a then mret tt
  else
    try_except
      (session ← on_world (get_session (key_of a));
       match session with
       | None => on_world (create_session (key_of a))
       | Some _ => mret tt
       end)
      any_exception
      (on_world (create_session (key_of a)));;
    update_self (set__session_created true).

(** ** The runner, as far as the adapter depends on it *)

(** [Runner.run_async(user_id, session_id, new_message)]: the session has to
    exist; the message and the events of the reply are appended to it. *)
Definition run_async `{External} (r : Runner)
    (user_id session_id new_message : string)
  : M World (list Event * option exn) :=
  modify (set_runner_calls
            (λ calls, (calls ++ [{| call_user_id := user_id;
                                    call_session_id := session_id;
                                    call_message := new_message |}])%list));;
  w ← get;
  match _session_service w with
  | None =>
      raise (AttributeError "'NoneType' object has no attribute 'get_session'")
  | Some sessions =>
      let key := (runner_app_name r, user_id, session_id) in
      match sessions !! key with
      | None => raise (ValueError ("Session not found: " ++ session_id))
      | Some history =>
          let '(events, err) := run_turn (runner_agent r) history new_message in
          modify (set_session_service
                    (Some (<[key := (history ++ UserMessage new_message
                                       :: map ModelEvent events)%list]>
                             sessions)));;
          mret (events, err)
      end
  end.

(** ** One turn *)

(** The body of [for part in event.content.parts]. *)
Definition on_part (final_response : string) (part : Part) : M World string :=
  match function_call part with
  | Some fc =>
      print ("🛠️ [Tool Call]: " ++ fc_name fc ++ "(" ++ fc_args fc ++ ")");;
      mret final_response
  | None =>
      match text part with
      | Some (String _ _ as t) => mret t
      | _ => mret final_response
      end
  end.

(** The body of [async for event in ...]. *)
Definition on_event (final_response : string) (event : Event)
  : M World string :=
  final_response ←
    match content event with
    | Some c =>
        match parts c with
        | Some ps => foldM on_part final_response ps
        | None => mret final_response
        end
    | None => mret final_response
    end;
  match actions event with
  | Some acts =>
      for_each acts (λ action,
        match function_calls action with
        | Some fcs =>
            for_each fcs (λ fc, print ("🛠️ [Tool Call]: " ++ fc_name fc))
        | None => mret tt
        end)
  | None => mret tt
  end;;
  mret final_response.

Definition _run_agent `{External} (message : string) : M Self string :=
  _ensure_session_async;;
  a ← self;
  '(events, err) ←
    on_world (run_async (_runner a) (_user_id a) (_session_id a) message);
  final_response ← on_world (foldM on_event "" events);
  match err with
  | Some e => raise e
  | None => mret tt
  end;;
  mret (match final_response with
        | String _ _ => final_response
        | EmptyString => "No response generated."
        end).

(** [asyncio.get_event_loop()]: [NoLoop] is the thread where it raises. *)
Definition get_event_loop : M World loop_state :=
  w ← get;
  match event_loop w with
  | NoLoop => raise (RuntimeError "There is no current event loop")
  | l => mret l
  end.

(** [loop.run_until_complete(coro)] is taken to run [coro] to its end on
    either branch of [loop.is_running()]. *)
Definition chat `{External} (message : string) (image_path : option string)
  : M Self string :=
  a ← self;
  on_world (print ("⏳ " ++ name a ++ " is thinking..."));;
  match image_path with
  | Some (String _ _ as path) =>
      match open_rb path with
      | Ok image_bytes =>
          on_world (print ("📸 [Attached Image: " ++ path ++ "]"))
      | Raise e => on_world (print ("❌ Error loading image: " ++ exn_str e))
      end
  | _ => mret tt
  end;;
  try_except
    (loop ← on_world get_event_loop;
     match loop with
     | Running => _run_agent message
     | _ => _run_agent message
     end)
    is_RuntimeError
    (on_world (modify (set_event_loop Idle));;
     _run_agent message).

Definition clear_memory `{External} : M Self unit :=
  a ← self;
  update_self (set__session_id
    ("session_" ++ name a ++ "_" ++ str_of_int (id a) ++ "_" ++
     str_of_int (hash (str_of_int (id a)))));;
  update_self (set__session_created false);;
  on_world (print ("🧹 Memory cleared for " ++ name a ++ ".")).

Definition newline : string := String (ascii_of_N 10) EmptyString.

Definition print_box (title content : string) : M World unit :=
  print (newline ++ "========== " ++ title ++ " ==========");;
  print content;;
  print ("==============================" ++ newline).

(** ** Vocabulary of the properties *)

(** The parts of an event and of a stream, in the order the loop meets
    them. *)
Definition event_parts (e : Event) : list Part :=
  match content e with
  | Some c => default [] (parts c)
  | None => []
  end.

Definition stream_parts (events : list Event) : list Part :=
  flat_map event_parts events.

(** A part with a non-empty text field. *)
Definition text_bearing (p : Part) : bool :=
  match text p with
  | Some (String _ _) => true
  | _ => false
  end.

(** A part the loop takes the response from: a non-empty text field and no
    function call. *)
Definition answers (p : Part) : bool :=
  match function_call p with
  | Some _ => false
  | None => text_bearing p
  end.

Definition text_bearing_texts (events : list Event) : list string :=
  omap text (List.filter text_bearing (stream_parts events)).

Definition answer_texts (events : list Event) : list string :=
  omap text (List.filter answers (stream_parts events)).

(** One step of the loop over the parts, on the running response. *)
Definition pick (final_response : string) (p : Part) : string :=
  if answers p then default final_response (text p) else final_response.

(** A computation that returns [v] and does no more than print. *)
Definition prints {A} (m : M World A) (v : A) : Prop :=
  ∀ w, ∃ lines, m w = (Ok v, set_stdout (λ out, (out ++ lines)%list) w).

(** The history of the session an adapter addresses; none yet when the
    session is still to be created. *)
Definition session_history (a : Agent) (w : World) : list HistoryItem :=
  match _session_service w with
  | Some sessions => default [] (sessions !! key_of a)
  | None => []
  end.

(** The turn the runner plays when [a] sends [message] in [w]. *)
Definition the_turn `{External} (a : Agent) (w : World) (message : string)
  : list Event * option exn :=
  run_turn (runner_agent (_runner a)) (session_history a w) message.

(** The call the runner receives when [a] sends [message]. *)
Definition call_of (a : Agent) (message : string) : RunnerCall :=
  {| call_user_id := _user_id a; call_session_id := _session_id a;
     call_message := message |}.

(** The state every constructed adapter is in: its runner is bound to the
    application name, the session service exists, and a session marked as
    created is in it. *)
Definition adapter_ok (a : Agent) (w : World) : bool :=
  String.eqb (runner_app_name (_runner a)) _app_name &&
  match _session_service w with
  | None => false
  | Some sessions =>
      implb (_session_created a) (bool_decide (is_Some (sessions !! key_of a)))
  end.

(** The identifier [clear_memory] computes. *)
Definition cleared_session_id `{External} (a : Agent) : string :=
  "session_" ++ name a ++ "_" ++ str_of_int (id a) ++ "_" ++
  str_of_int (hash (str_of_int (id a))).

(** The process after a turn that yields [events] and prints [lines]. *)
Definition after_turn (a : Agent) (w : World) (message : string)
    (events : list Event) (lines : list string) : World :=
  {| cwd_json := cwd_json w;
     environ := environ w;
     stdout := (stdout w ++ lines)%list;
     _session_service :=
       Some (<[key_of a := (session_history a w ++ UserMessage message
                              :: map ModelEvent events)%list]>
               (default ∅ (_session_service w)));
     event_loop := event_loop w;
     runner_calls := (runner_calls w ++ [call_of a message])%list |}.

(** What [_run_agent] hands back for a stream: the last answer, or the
    placeholder. *)
Definition response_of (events : list Event) : string :=
  match List.last (answer_texts events) "" with
  | String _ _ as t => t
  | EmptyString => "No response generated."
  end.

(** ** Credentials, as the properties speak of them *)

(** A file that loads as an object whose [type] is ["service_account"]. *)
Definition is_service_account (loaded : outcome json) : bool :=
  match loaded with
  | Ok (JObj members) =>
      eq_str (default JNull (member "type" members)) "service_account"
  | _ => false
  end.


(** The first service-account file in the order of [glob], and the project
    identifier it carries ([None], that is [JNull], when it has none). *)
Definition first_service_account (files : list (string * outcome json))
  : option (string * outcome json) :=
  List.find (λ file, is_service_account file.2) files.

Definition first_project_id (files : list (string * outcome json)) : json :=
  match first_service_account files with
  | Some (_, Ok (JObj members)) => default JNull (member "project_id" members)
  | _ => JNull
  end.

(** The file [_get_project_id] returns with the identifier. *)
Definition first_sa_file (files : list (string * outcome json))
  : option string :=
  match first_service_account files with
  | Some (f, _) => Some f
  | None => None
  end.

Definition no_credentials : string :=
  "⚠️ No service account JSON found! Place your GCP JSON in this folder.".

(** ** Sample data *)

Definition service_account_file (project_id : json) : outcome json :=
  Ok (JObj [("type", JStr "service_account"); ("project_id", project_id)]).

Definition fresh_process (files : list (string * outcome json)) : World :=
  {| cwd_json := files; environ := ∅; stdout := [];
     _session_service := None; event_loop := NoLoop; runner_calls := [] |}.

Definition say (t : string) : Part :=
  {| function_call := None; text := Some t |}.


Definition call_only (fn : string) : Part :=
  {| function_call := Some {| fc_name := fn; fc_args := "{}" |};
     text := None |}.

Definition reply (ps : list Part) : Event :=
  {| content := Some {| parts := Some ps |}; actions := None |}.


(** A turn that speaks, calls a tool and speaks again. *)
Definition two_answers_stream : list Event :=
  [reply [say "Let me check."]; reply [call_only "get_profile"];
   reply [say "Here is your profile."]].


(** A runner that answers every message with the same events. *)
Definition scripted (events : list Event) : External :=
  {| hash := λ s, (Z.of_nat (String.length s) * 7919 - 12345)%Z;
     run_turn := λ _ _ _, (events, None);
     open_rb := λ _, Raise (OtherError "No such file or directory") |}.

(** ProfileBot as [get_agents] builds it, at address 140234, and the
    process its construction leaves. *)
Definition profile_bot : Agent :=
  let agent := {| adk_name := "ProfileBot"; adk_model := "gemini-2.0-flash";
                  adk_instruction := "You are ProfileBot.";
                  adk_tools := ["save_branch"; "save_skills"; "save_project";
                                "get_profile"] |} in
  {| id := 140234; name := "ProfileBot"; model_name := "gemini-2.0-flash";
     system_instruction := "You are ProfileBot.";
     tools := ["save_branch"; "save_skills"; "save_project"; "get_profile"];
     _session_created := false; _user_id := "user_ProfileBot";
     _session_id := "session_ProfileBot_140234";
     _agent := agent;
     _runner := {| runner_agent := agent; runner_app_name := _app_name |} |}.

Definition started_process : World :=
  {| cwd_json := [("key.json", service_account_file (JStr "demo"))];
     environ := list_to_map
       [("GOOGLE_APPLICATION_CREDENTIALS", "key.json");
        ("GOOGLE_GENAI_USE_VERTEXAI", "true");
        ("GOOGLE_CLOUD_PROJECT", "demo");
        ("GOOGLE_CLOUD_LOCATION", "us-central1")];
     stdout := ["🔌 Connecting to Vertex AI (Project: demo, Loc: us-central1)...";
                "🔑 Using credentials: key.json"];
     _session_service := Some ∅; event_loop := NoLoop; runner_calls := [] |}.

(** ** More vocabulary: one turn and one [chat] in closed form *)

(** A computation that returns [v] and prints exactly [lines]. *)
Definition prints_as {A} (m : M World A) (v : A) (lines : list string)
  : Prop :=
  ∀ w, m w = (Ok v, set_stdout (λ out, (out ++ lines)%list) w).

(** The trace lines of a part, an action, an event and a stream. *)
Definition part_lines (p : Part) : list string :=
  match function_call p with
  | Some fc => ["🛠️ [Tool Call]: " ++ fc_name fc ++ "(" ++ fc_args fc ++ ")"]
  | None => []
  end.

Definition action_lines (action : Action) : list string :=
  match function_calls action with
  | Some fcs => map (λ fc, "🛠️ [Tool Call]: " ++ fc_name fc) fcs
  | None => []
  end.

Definition event_lines (e : Event) : list string :=
  (flat_map part_lines (event_parts e) ++
   match actions e with
   | Some acts => flat_map action_lines acts
   | None => []
   end)%list.

Definition stream_lines (events : list Event) : list string :=
  flat_map event_lines events.

(** What a turn hands to the caller of [_run_agent]. *)
Definition turn_outcome (events : list Event) (err : option exn)
  : outcome string :=
  match err with
  | Some e => Raise e
  | None => Ok (response_of events)
  end.

(** [_run_agent] on a constructed adapter. *)
Definition run_turn_on `{External} (a : Agent) (w : World) (message : string)
  : outcome string * Self :=
  let '(events, err) := the_turn a w message in
  (turn_outcome events err,
   (set__session_created true a,
    after_turn a w message events (stream_lines events))).

(** What [chat] prints before the turn. *)
Definition chat_prelude `{External} (a : Agent) (image_path : option string)
  : list string :=
  ("⏳ " ++ name a ++ " is thinking...") ::
  match image_path with
  | Some (String _ _ as path) =>
      match open_rb path with
      | Ok _ => ["📸 [Attached Image: " ++ path ++ "]"]
      | Raise e => ["❌ Error loading image: " ++ exn_str e]
      end
  | _ => []
  end.

(** [chat] on a constructed adapter. *)
Definition chat_on `{External} (a : Agent) (w : World) (message : string)
    (image_path : option string) : outcome string * Self :=
  let w1 :=
    set_stdout (λ out, (out ++ chat_prelude a image_path)%list) w in
  match event_loop w with
  | NoLoop => run_turn_on a (set_event_loop Idle w1) message
  | _ =>
      match run_turn_on a w1 message with
      | (Raise e, (a', w')) =>
          if is_RuntimeError e
          then run_turn_on a' (set_event_loop Idle w') message
          else (Raise e, (a', w'))
      | r => r
      end
  end.

(** A process with its output erased. *)
Definition silent (w : World) : World := set_stdout (λ _, []) w.

(** The sessions of a process; none before the first construction. *)
Definition sessions_of (w : World) : gmap session_key (list HistoryItem) :=
  default ∅ (_session_service w).




(** ProfileBot constructed a second time, at address 140300. *)
Definition profile_bot_again : Agent :=
  let agent := {| adk_name := "ProfileBot"; adk_model := "gemini-2.0-flash";
                  adk_instruction := "You are ProfileBot.";
                  adk_tools := [] |} in
  {| id := 140300; name := "ProfileBot"; model_name := "gemini-2.0-flash";
     system_instruction := "You are ProfileBot."; tools := [];
     _session_created := false; _user_id := "user_ProfileBot";
     _session_id := "session_ProfileBot_140300";
     _agent := agent;
     _runner := {| runner_agent := agent; runner_app_name := _app_name |} |}.


End Utils.

(* ===================================================================== *)
(** * app.py: the shared profile and the tool functions *)
(* ===================================================================== *)

Module App.
Import Py.

(** [st.session_state.student_data]: created as [{}], written by the tools
    only, reset to [{}] by the two clear buttons. *)
Definition student_data : Type := dict.

(** [student_data[k] = v] *)
Definition setitem (k : string) (v : pyval) : M student_data unit :=
  modify (dict_set k v).

(** [student_data[k]] *)
Definition getitem (k : string) : M student_data pyval :=
  λ d, match dict_get k d with
       | Some v => (Ok v, d)
       | None => (Raise (KeyError k), d)
       end.

(** [student_data[k].append(x)]: only a [list] has [append]. *)
Definition append (k : string) (x : pyval) : M student_data unit :=
  v ← getitem k;
  match v with
  | VList l => setitem k (VList (l ++ [x])%list)
  | VStr _ => raise (AttributeError "'str' object has no attribute 'append'")
  | VDict _ => raise (AttributeError "'dict' object has no attribute 'append'")
  end.

Definition save_branch (branch : string) : M student_data string :=
  setitem "branch" (VStr branch);;
  mret ("✅ Branch saved: " ++ branch).

Definition save_skills (skills : string) : M student_data string :=
  setitem "skills" (VList (map (λ s, VStr (strip s)) (split "," skills)));;
  saved ← getitem "skills";
  mret ("✅ Skills saved: " ++ repr saved).

Definition save_project (title description : string) : M student_data string :=
  d ← get;
  (if negb (dict_contains "projects" d)
   then setitem "projects" (VList [])
   else mret tt);;
  append "projects" (VDict [("title", VStr title); ("desc", VStr description)]);;
  mret ("✅ Project added: " ++ title).

Definition get_profile : M student_data string :=
  d ← get;
  mret (match d with
        | [] => "No data yet."
        | _ :: _ => repr (VDict d)
        end).

Definition HOT_SKILLS : list string :=
  ["python"; "react"; "machine learning"; "aws"; "docker"; "kubernetes";
   "typescript"; "golang"].

Definition check_skill_demand (skill : string) : string :=
  if bool_decide (lower skill ∈ HOT_SKILLS)
  then "🔥 '" ++ skill ++ "' is HIGH DEMAND in 2024-25!"
  else "'" ++ skill ++
       "' is useful but consider adding trending skills like Python, React, or AWS.".

Definition analyze_project (title description : string) : string :=
  let issues : list string := [] in
  let issues :=
    if (len description <? 20)%nat
    then (issues ++ ["Too short - add more details"])%list else issues in
  let issues :=
    if negb (existsb (λ word, contains word (lower description))
               ["built"; "developed"; "created"; "implemented"; "designed"])
    then (issues ++ ["Use action verbs (built, developed, created)"])%list
    else issues in
  let issues :=
    if negb (any_char isdigit description)
    then (issues ++ ["Add metrics/numbers (e.g., '50% faster', '1000 users')"])%list
    else issues in
  match issues with
  | _ :: _ => "⚠️ Improvements needed: " ++ join ", " issues
  | [] => "✅ Project description looks strong!"
  end.

Definition TRENDS : gmap string string :=
  list_to_map
    [("cse", "🚀 AI/ML, Cloud Computing, Cybersecurity are hot. Remote work is common. Focus on DSA + System Design.");
     ("ece", "📡 IoT, Embedded Systems, 5G. Hardware + Software hybrid roles are growing. Learn Python for automation.");
     ("mechanical", "⚡ EV industry is booming. CAD/CAM + Python automation highly valued. Consider robotics.");
     ("civil", "🏗️ Sustainable construction, BIM software. Green building certifications help stand out.");
     ("electrical", "🔋 Renewable energy, Power Electronics, Smart Grid. Python + MATLAB are useful.")].

Definition get_industry_trends (branch : string) : string :=
  default "Focus on interdisciplinary skills + coding basics. Python is universal."
          (TRENDS !! lower branch).

Definition suggest_certifications (skills : string) : string :=
  let certs : list string := [] in
  let skills_lower := lower skills in
  let certs :=
    if contains "python" skills_lower
    then (certs ++ ["Google Professional ML Engineer"])%list else certs in
  let certs :=
    if contains "cloud" skills_lower || contains "aws" skills_lower
    then (certs ++ ["AWS Solutions Architect"])%list else certs in
  let certs :=
    if contains "react" skills_lower || contains "frontend" skills_lower
    then (certs ++ ["Meta Front-End Developer"])%list else certs in
  let certs :=
    if contains "data" skills_lower
    then (certs ++ ["Google Data Analytics Certificate"])%list else certs in
  let certs :=
    match certs with
    | [] => (certs ++ ["Google IT Support Certificate (good starting point)"])%list
    | _ :: _ => certs
    end in
  "📜 Recommended: " ++ join ", " certs.

(** A tool invocation: the tool the model names and its string arguments.
    The eight tools are the ones [get_agents] hands to the three agents. *)
Inductive tool_call : Type :=
  | Call_save_branch (branch : string)
  | Call_save_skills (skills : string)
  | Call_save_project (title description : string)
  | Call_get_profile
  | Call_check_skill_demand (skill : string)
  | Call_analyze_project (title description : string)
  | Call_get_industry_trends (branch : string)
  | Call_suggest_certifications (skills : string).

Definition invoke (c : tool_call) : M student_data string :=
  match c with
  | Call_save_branch branch => save_branch branch
  | Call_save_skills skills => save_skills skills
  | Call_save_project title description => save_project title description
  | Call_get_profile => get_profile
  | Call_check_skill_demand skill => mret (check_skill_demand skill)
  | Call_analyze_project title description =>
      mret (analyze_project title description)
  | Call_get_industry_trends branch => mret (get_industry_trends branch)
  | Call_suggest_certifications skills => mret (suggest_certifications skills)
  end.

(** The two clear buttons: [st.session_state.student_data = {}]. *)
Definition clear_profile : M student_data unit := modify (λ _, []).

(** ** The shape of the profile

    [branch] holds a string, [skills] a list of strings, [projects] a list
    of title/description records; there is no other key. *)

Definition is_str (v : pyval) : bool :=
  match v with VStr _ => true | _ => false end.

Definition is_project (v : pyval) : bool :=
  match v with
  | VDict [(k1, VStr _); (k2, VStr _)] =>
      String.eqb k1 "title" && String.eqb k2 "desc"
  | _ => false
  end.

Definition is_list_of (p : pyval → bool) (v : pyval) : bool :=
  match v with VList l => forallb p l | _ => false end.

Definition well_typed (k : string) (v : pyval) : bool :=
  if String.eqb k "branch" then is_str v
  else if String.eqb k "skills" then is_list_of is_str v
  else if String.eqb k "projects" then is_list_of is_project v
  else false.

Definition profile_state (d : student_data) : bool :=
  forallb (λ kv, well_typed kv.1 kv.2) d.

(** The states the application can be in: it starts from [{}], the tools
    and the clear buttons are all that write. *)
Inductive reachable : student_data → Prop :=
  | reach_start : reachable []
  | reach_invoke d c r d' :
      reachable d → invoke c d = (r, d') → reachable d'
  | reach_clear d r d' :
      reachable d → clear_profile d = (r, d') → reachable d'.

(** What [save_skills] stores for its argument. *)
Definition skills_of (skills : string) : pyval :=
  VList (map (λ s, VStr (strip s)) (split "," skills)).

(** What [save_project] appends for its arguments. *)
Definition project_of (title description : string) : pyval :=
  VDict [("title", VStr title); ("desc", VStr description)].

(** A profile with a branch, two skills and one project. *)
Definition sample_profile : student_data :=
  [("branch", VStr "CSE");
   ("skills", VList [VStr "c"; VStr "java"]);
   ("projects", VList [project_of "Old" "An earlier project"])].

(** The projects of a profile; none before the first is saved. *)
Definition projects_of (d : student_data) : list pyval :=
  match dict_get "projects" d with
  | Some (VList l) => l
  | _ => []
  end.

(** ** More vocabulary *)

(** The key a tool writes; [None] for the tools that only read. *)
Definition written_key (c : tool_call) : option string :=
  match c with
  | Call_save_branch _ => Some "branch"
  | Call_save_skills _ => Some "skills"
  | Call_save_project _ _ => Some "projects"
  | _ => None
  end.





(** The fallback of [get_industry_trends] and of [suggest_certifications]. *)
Definition general_advice : string :=
  "Focus on interdisciplinary skills + coding basics. Python is universal.".

Definition starter_certificate : string :=
  "Google IT Support Certificate (good starting point)".

(** ** The three agents *)

(** [get_agents()], on the three objects the interpreter allocates.  The
    model is the default of the constructor; the tools are named by their
    functions. *)
Definition get_agents (id1 id2 id3 : Z)
  : M Utils.World (Utils.Agent * Utils.Agent * Utils.Agent) :=
  profile_bot ←
    Utils.__init__ id1 "ProfileBot" "gemini-2.0-flash"
      "You are ProfileBot, a friendly assistant that collects student info for resumes.
        Ask about: Branch, Skills, Projects. Use tools to SAVE each piece.
        Be conversational. One question at a time. Keep responses short."
      (Some ["save_branch"; "save_skills"; "save_project"; "get_profile"]);
  reviewer_bot ←
    Utils.__init__ id2 "ReviewerBot" "gemini-2.0-flash"
      "You are ReviewerBot, a resume expert. Your job:
        1. Check skill demand using check_skill_demand tool
        2. Analyze projects using analyze_project tool
        Give specific, actionable feedback. Be encouraging but honest."
      (Some ["check_skill_demand"; "analyze_project"]);
  coach_bot ←
    Utils.__init__ id3 "CoachBot" "gemini-2.0-flash"
      "You are CoachBot, a career advisor for B.Tech students.
        Use get_industry_trends for branch-specific advice.
        Use suggest_certifications for cert recommendations.
        Be motivating and give specific actionable advice."
      (Some ["get_industry_trends"; "suggest_certifications"]);
  mret (profile_bot, reviewer_bot, coach_bot).

(** The three agents built in a process that has a credential file. *)
Definition agents_built
  : outcome (Utils.Agent * Utils.Agent * Utils.Agent) * Utils.World :=
  get_agents 140234 140300 140366
    (Utils.fresh_process
       [("key.json", Utils.service_account_file (Utils.JStr "demo"))]).

Definition built_profile_bot : Utils.Agent :=
  match agents_built.1 with
  | Ok (p, _, _) => p
  | Raise _ => Utils.profile_bot
  end.

Definition built_reviewer_bot : Utils.Agent :=
  match agents_built.1 with
  | Ok (_, r, _) => r
  | Raise _ => Utils.profile_bot
  end.

Definition built_coach_bot : Utils.Agent :=
  match agents_built.1 with
  | Ok (_, _, c) => c
  | Raise _ => Utils.profile_bot
  end.

End App.


(* ===================================================================== *)
(** * Properties of the tool functions *)
(* ===================================================================== *)

Module AppSpec.
Import Py App.

#[local] Arguments String.eqb : simpl never.

Ltac run :=
  unfold mbind, mret, M_bind, M_ret, bind, ret, modify, get, raise in *;
  cbv beta iota zeta in *.

Lemma dict_get_set_eq k v d : dict_get k (dict_set k v d) = Some v.
Proof.
  induction d as [|[k' v'] d IH]; simpl.
  - by rewrite String.eqb_refl.
  - destruct (String.eqb k k') eqn:E; simpl; rewrite E; auto.
Qed.

Lemma dict_get_set_ne k k' v d :
  k ≠ k' → dict_get k' (dict_set k v d) = dict_get k' d.
Proof.
  intros Hne. induction d as [|[k0 v0] d IH]; simpl.
  - apply String.eqb_neq in Hne. rewrite String.eqb_sym in Hne. by rewrite Hne.
  - destruct (String.eqb k k0) eqn:E; simpl.
    + apply String.eqb_eq in E; subst k0.
      assert (String.eqb k' k = false) as -> by (apply String.eqb_neq; congruence).
      done.
    + by rewrite IH.
Qed.

Lemma dict_set_set k v v' d :
  dict_set k v (dict_set k v' d) = dict_set k v d.
Proof.
  induction d as [|[k0 v0] d IH]; simpl.
  - by rewrite String.eqb_refl.
  - destruct (String.eqb k k0) eqn:E; simpl; rewrite E; [done|]. by rewrite IH.
Qed.

Lemma profile_state_set k v d :
  well_typed k v = true → profile_state d = true →
  profile_state (dict_set k v d) = true.
Proof.
  intros Hv. unfold profile_state.
  induction d as [|[k' v'] d IH]; simpl.
  - by rewrite Hv.
  - intros [H1 H2]%andb_prop.
    destruct (String.eqb k k') eqn:E; simpl.
    + apply String.eqb_eq in E; subst k'. by rewrite Hv, H2.
    + by rewrite H1, IH.
Qed.

Lemma profile_state_get k v d :
  profile_state d = true → dict_get k d = Some v → well_typed k v = true.
Proof.
  unfold profile_state.
  induction d as [|[k' v'] d IH]; simpl; [done|].
  intros [H1 H2]%andb_prop.
  destruct (String.eqb k k') eqn:E.
  - apply String.eqb_eq in E; subst k'. by intros [= <-].
  - by apply IH.
Qed.

Lemma profile_state_projects d v :
  profile_state d = true → dict_get "projects" d = Some v →
  ∃ l, v = VList l ∧ forallb is_project l = true.
Proof.
  intros Hd Hg. pose proof (profile_state_get _ _ _ Hd Hg) as Hw.
  unfold well_typed in Hw; simpl in Hw.
  destruct v; try discriminate. eauto.
Qed.

Lemma save_branch_run branch d :
  save_branch branch d =
    (Ok ("✅ Branch saved: " ++ branch), dict_set "branch" (VStr branch) d).
Proof. reflexivity. Qed.

Lemma save_skills_run skills d :
  save_skills skills d =
    (Ok ("✅ Skills saved: " ++ repr (skills_of skills)),
     dict_set "skills" (skills_of skills) d).
Proof.
  unfold save_skills, setitem, getitem. run.
  fold (skills_of skills). by rewrite dict_get_set_eq.
Qed.

Lemma save_project_run title description d :
  profile_state d = true →
  save_project title description d =
    (Ok ("✅ Project added: " ++ title),
     dict_set "projects"
       (VList (projects_of d ++ [project_of title description])) d).
Proof.
  intros Hd. unfold save_project, append, setitem, getitem, dict_contains,
    projects_of. run.
  destruct (dict_get "projects" d) as [v|] eqn:Hg; simpl.
  - destruct (profile_state_projects _ _ Hd Hg) as (l & -> & _).
    rewrite Hg. done.
  - rewrite dict_get_set_eq. simpl. by rewrite dict_set_set.
Qed.

Lemma skills_of_well_typed skills : well_typed "skills" (skills_of skills) = true.
Proof.
  unfold well_typed, skills_of; simpl.
  induction (split "," skills); simpl; auto.
Qed.

Lemma projects_of_well_typed d title description :
  profile_state d = true →
  well_typed "projects"
    (VList (projects_of d ++ [project_of title description])) = true.
Proof.
  intros Hd. unfold well_typed; simpl. rewrite forallb_app; simpl.
  rewrite andb_true_r. unfold projects_of.
  destruct (dict_get "projects" d) as [v|] eqn:Hg; [|done].
  destruct (profile_state_projects _ _ Hd Hg) as (l & -> & Hl). done.
Qed.

(** Every state the application reaches has the shape of a profile. *)
Lemma invoke_profile_state c d r d' :
  profile_state d = true → invoke c d = (r, d') → profile_state d' = true.
Proof.
  intros Hd. destruct c; simpl.
  - rewrite save_branch_run. intros [= _ <-]. by apply profile_state_set.
  - rewrite save_skills_run. intros [= _ <-].
    apply profile_state_set; [apply skills_of_well_typed|done].
  - rewrite save_project_run by done. intros [= _ <-].
    apply profile_state_set; [by apply projects_of_well_typed|done].
  - unfold get_profile. run. by intros [= _ <-].
  - run. by intros [= _ <-].
  - run. by intros [= _ <-].
  - run. by intros [= _ <-].
  - run. by intros [= _ <-].
Qed.

Lemma reachable_profile_state d : reachable d → profile_state d = true.
Proof.
  induction 1 as [|d c r d' _ IH Hc|d r d' _ IH Hc].
  - done.
  - by eapply invoke_profile_state.
  - unfold clear_profile in Hc. run. by injection Hc as _ <-.
Qed.

Lemma elem_of_HOT_SKILLS_dec (s : string) :
  bool_decide (s ∈ HOT_SKILLS) = true ↔ s ∈ HOT_SKILLS.
Proof. apply bool_decide_eq_true. Qed.

(** The other direction of the lookup: a listed skill gets the high-demand
    message. *)
Lemma check_skill_demand_hot skill :
  lower skill ∈ HOT_SKILLS →
  check_skill_demand skill = "🔥 '" ++ skill ++ "' is HIGH DEMAND in 2024-25!".
Proof.
  intros Hin. unfold check_skill_demand.
  by rewrite (bool_decide_eq_true_2 _ Hin).
Qed.

(** C6: [analyze_project("X", "did stuff")] returns the warning that lists
    the three deficiencies (too short, no action verb, no digit), and
    [analyze_project("X", "Built a 50% faster caching layer serving 1000
    users")] returns the success string. *)
Theorem analyze_project_examples :
  analyze_project "X" "did stuff" =
    "⚠️ Improvements needed: Too short - add more details, Use action verbs (built, developed, created), Add metrics/numbers (e.g., '50% faster', '1000 users')"
  ∧ analyze_project "X" "Built a 50% faster caching layer serving 1000 users" =
    "✅ Project description looks strong!".
Proof. split; vm_compute; reflexivity. Qed.

(** C7: [check_skill_demand("Python")] and [check_skill_demand("python")]
    both match the hot-skill list through the lowercased form and return
    the high-demand message; [check_skill_demand("cobol")] does not match
    and returns the generic suggestion. *)
Theorem check_skill_demand_examples :
  lower "Python" ∈ HOT_SKILLS
  ∧ check_skill_demand "Python" = "🔥 'Python' is HIGH DEMAND in 2024-25!"
  ∧ lower "python" ∈ HOT_SKILLS
  ∧ check_skill_demand "python" = "🔥 'python' is HIGH DEMAND in 2024-25!"
  ∧ (lower "cobol" ∉ HOT_SKILLS)
  ∧ check_skill_demand "cobol" =
      "'cobol' is useful but consider adding trending skills like Python, React, or AWS.".
Proof.
  repeat split; try (vm_compute; reflexivity);
    apply (bool_decide_unpack _); vm_compute; exact I.
Qed.



(** C8: [save_skills] leaves in [skills] the list made from its argument
    alone, whatever the profile held before; two calls of [save_project]
    leave the earlier projects followed by the two new ones, in the order
    of the calls. *)
Theorem save_skills_replaces_save_project_appends :
  (∀ d skills, ∃ msg d',
     save_skills skills d = (Ok msg, d')
     ∧ dict_get "skills" d' = Some (skills_of skills))
  ∧ (∀ d title1 desc1 title2 desc2,
       profile_state d = true →
       ∃ msg d',
         (save_project title1 desc1;; save_project title2 desc2) d =
           (Ok msg, d')
         ∧ dict_get "projects" d' =
             Some (VList (projects_of d ++
                          [project_of title1 desc1; project_of title2 desc2]))).
Proof.
  split.
  - intros d skills. do 2 eexists. rewrite save_skills_run.
    split; [reflexivity|]. apply dict_get_set_eq.
  - intros d t1 d1 t2 d2 Hd.
    pose proof (projects_of_well_typed d t1 d1 Hd) as Hw.
    pose proof (profile_state_set _ _ _ Hw Hd) as Hd1.
    do 2 eexists. run.
    rewrite (save_project_run t1 d1 d Hd).
    rewrite (save_project_run t2 d2 _ Hd1).
    split; [reflexivity|]. rewrite dict_get_set_eq.
    unfold projects_of at 1. rewrite dict_get_set_eq.
    by rewrite <- app_assoc.
Qed.

Lemma save_skills_replaces_save_project_appends_witness :
  profile_state sample_profile = true
  ∧ ∃ msg d',
      (save_project "A" "first";; save_project "B" "second") sample_profile =
        (Ok msg, d')
      ∧ dict_get "projects" d' =
          Some (VList (projects_of sample_profile ++
                       [project_of "A" "first"; project_of "B" "second"])).
Proof.
  split; [reflexivity|].
  apply (proj2 save_skills_replaces_save_project_appends). reflexivity.
Defined.

(** C9: called with any string arguments in any state of the profile,
    each of the eight tools returns a string and raises nothing; the state
    it leaves is a profile again, so this holds call after call. *)
Theorem tools_never_raise d c :
  profile_state d = true →
  ∃ s d', invoke c d = (Ok s, d') ∧ profile_state d' = true.
Proof.
  intros Hd.
  assert (∃ s d', invoke c d = (Ok s, d')) as (s & d' & Hrun).
  { destruct c; simpl.
    - rewrite save_branch_run. eauto.
    - rewrite save_skills_run. eauto.
    - rewrite save_project_run by done. eauto.
    - unfold get_profile. run. eauto.
    - run. eauto.
    - run. eauto.
    - run. eauto.
    - run. eauto. }
  exists s, d'. split; [done|]. by eapply invoke_profile_state.
Qed.

Lemma tools_never_raise_witness :
  profile_state sample_profile = true
  ∧ ∃ s d',
      invoke (Call_save_project "Cache" "Built a cache") sample_profile =
        (Ok s, d')
      ∧ profile_state d' = true.
Proof.
  split; [reflexivity|]. apply tools_never_raise. reflexivity.
Defined.

(** ** Beyond the stated properties: the tools *)


(** [suggest_certifications] always recommends something: each of the four
    certificates is listed exactly when one of its keywords occurs in the
    lowercased input, and the starter certificate exactly when none of the
    six keywords does. *)
Theorem suggest_certifications_keywords skills :
  ∃ certs,
    suggest_certifications skills = "📜 Recommended: " ++ join ", " certs
    ∧ certs ≠ []
    ∧ bool_decide ("Google Professional ML Engineer" ∈ certs)
      = contains "python" (lower skills)
    ∧ bool_decide ("AWS Solutions Architect" ∈ certs)
      = contains "cloud" (lower skills) || contains "aws" (lower skills)
    ∧ bool_decide ("Meta Front-End Developer" ∈ certs)
      = contains "react" (lower skills) || contains "frontend" (lower skills)
    ∧ bool_decide ("Google Data Analytics Certificate" ∈ certs)
      = contains "data" (lower skills)
    ∧ bool_decide (starter_certificate ∈ certs)
      = negb (contains "python" (lower skills)
              || contains "cloud" (lower skills)
              || contains "aws" (lower skills)
              || contains "react" (lower skills)
              || contains "frontend" (lower skills)
              || contains "data" (lower skills)).
Proof.
  unfold suggest_certifications.
  destruct (contains "python" (lower skills));
    destruct (contains "cloud" (lower skills));
    destruct (contains "aws" (lower skills));
    destruct (contains "react" (lower skills));
    destruct (contains "frontend" (lower skills));
    destruct (contains "data" (lower skills));
    (eexists; split; [reflexivity|]; split; [discriminate|];
     repeat split; vm_compute; reflexivity).
Qed.

Lemma TRENDS_lookup_None k :
  k ∉ ["cse"; "ece"; "mechanical"; "civil"; "electrical"] →
  TRENDS !! k = None.
Proof. intros Hk. unfold TRENDS. by apply not_elem_of_list_to_map_1. Qed.

(** [get_industry_trends] answers with the text of a branch exactly when
    the lowercased argument is one of the five keys of the table, with the
    general advice otherwise; each branch the selection box of the coach
    tab offers has a text of its own. *)
Theorem get_industry_trends_known_branches :
  (∀ branch,
     lower branch ∉ ["cse"; "ece"; "mechanical"; "civil"; "electrical"] →
     get_industry_trends branch = general_advice)
  ∧ (∀ branch,
       lower branch ∈ ["cse"; "ece"; "mechanical"; "civil"; "electrical"] →
       get_industry_trends branch ≠ general_advice
       ∧ TRENDS !! lower branch = Some (get_industry_trends branch))
  ∧ Forall (λ branch, get_industry_trends branch ≠ general_advice)
      ["CSE"; "ECE"; "Mechanical"; "Civil"; "Electrical"].
Proof.
  split; [|split].
  - intros branch Hk. unfold get_industry_trends.
    by rewrite (TRENDS_lookup_None _ Hk).
  - intros branch Hk. unfold get_industry_trends.
    repeat (apply elem_of_cons in Hk as [-> | Hk]);
      [split; [vm_compute; discriminate | vm_compute; reflexivity] ..|].
    by apply elem_of_nil in Hk.
  - repeat constructor; vm_compute; discriminate.
Qed.

Lemma get_industry_trends_known_branches_witness :
  (lower "Mechanical" ∈ ["cse"; "ece"; "mechanical"; "civil"; "electrical"])
  ∧ get_industry_trends "Mechanical" ≠ general_advice.
Proof.
  assert (lower "Mechanical"
          ∈ ["cse"; "ece"; "mechanical"; "civil"; "electrical"]) as Hin
    by (apply (bool_decide_unpack _); vm_compute; exact I).
  split; [exact Hin|].
  exact (proj1 (proj1 (proj2 get_industry_trends_known_branches)
                  "Mechanical" Hin)).
Defined.

(** A tool writes at most its own key: every other entry of the profile is
    what it was, and the five tools that only read leave the profile as a
    whole untouched. *)
Theorem invoke_frame d c r d' :
  profile_state d = true →
  invoke c d = (r, d') →
  (∀ k, written_key c ≠ Some k → dict_get k d' = dict_get k d)
  ∧ (written_key c = None → d' = d).
Proof.
  intros Hd Hrun. destruct c; simpl in *.
  - rewrite save_branch_run in Hrun. injection Hrun as _ <-.
    split; [|done]. intros k Hk. apply dict_get_set_ne. congruence.
  - rewrite save_skills_run in Hrun. injection Hrun as _ <-.
    split; [|done]. intros k Hk. apply dict_get_set_ne. congruence.
  - rewrite save_project_run in Hrun by done. injection Hrun as _ <-.
    split; [|done]. intros k Hk. apply dict_get_set_ne. congruence.
  - unfold get_profile in Hrun. run. by injection Hrun as _ <-.
  - run. by injection Hrun as _ <-.
  - run. by injection Hrun as _ <-.
  - run. by injection Hrun as _ <-.
  - run. by injection Hrun as _ <-.
Qed.

Lemma invoke_frame_witness :
  profile_state sample_profile = true
  ∧ invoke (Call_save_branch "ECE") sample_profile =
      (Ok "✅ Branch saved: ECE",
       dict_set "branch" (VStr "ECE") sample_profile)
  ∧ dict_get "skills" (dict_set "branch" (VStr "ECE") sample_profile) =
      dict_get "skills" sample_profile.
Proof.
  split; [reflexivity|]. split; [reflexivity|].
  apply (proj1 (invoke_frame sample_profile (Call_save_branch "ECE")
                  (Ok "✅ Branch saved: ECE")
                  (dict_set "branch" (VStr "ECE") sample_profile)
                  eq_refl eq_refl)).
  discriminate.
Defined.

(** A later [save_branch] or [save_skills] makes the earlier one
    unobservable: the answer and the profile are those of the later call
    alone. *)
Theorem save_overwrites d :
  (∀ b1 b2, (save_branch b1;; save_branch b2) d = save_branch b2 d)
  ∧ (∀ s1 s2, (save_skills s1;; save_skills s2) d = save_skills s2 d).
Proof.
  split; intros x1 x2; run.
  - rewrite !save_branch_run. by rewrite dict_set_set.
  - rewrite !save_skills_run. by rewrite dict_set_set.
Qed.








Lemma dict_set_not_empty k v d : dict_set k v d ≠ [].
Proof. destruct d as [|[k' v'] d]; simpl; [done|]. by destruct (String.eqb k k'). Qed.

(** [get_profile] never changes the profile, and it answers "No data yet."
    exactly when the profile is empty: after any of the three save tools
    it shows the profile, after the clear button it is back to
    "No data yet.". *)
Theorem get_profile_placeholder d :
  (get_profile d).2 = d
  ∧ ((get_profile d).1 = Ok "No data yet." ↔ d = [])
  ∧ (∀ c r d', written_key c ≠ None → profile_state d = true →
       invoke c d = (r, d') → (get_profile d').1 ≠ Ok "No data yet.")
  ∧ ((clear_profile;; get_profile) d).1 = Ok "No data yet.".
Proof.
  split; [done|]. split; [|split; [|done]].
  - unfold get_profile. run. simpl. destruct d as [|kv d]; [done|].
    split; [|done]. intros Heq. discriminate Heq.
  - intros c r d' Hw Hd Hrun.
    assert (d' ≠ []) as Hne.
    { destruct c; simpl in *; try done.
      - rewrite save_branch_run in Hrun. injection Hrun as _ <-.
        apply dict_set_not_empty.
      - rewrite save_skills_run in Hrun. injection Hrun as _ <-.
        apply dict_set_not_empty.
      - rewrite save_project_run in Hrun by done. injection Hrun as _ <-.
        apply dict_set_not_empty. }
    unfold get_profile. run. simpl. destruct d' as [|kv d']; [done|].
    intros Heq. discriminate Heq.
Qed.

Lemma get_profile_placeholder_witness :
  written_key (Call_save_skills "python, sql") ≠ None
  ∧ profile_state [] = true
  ∧ (get_profile (dict_set "skills" (skills_of "python, sql") [])).1
    ≠ Ok "No data yet.".
Proof.
  assert (written_key (Call_save_skills "python, sql") ≠ None) as Hw
    by discriminate.
  split; [exact Hw|]. split; [reflexivity|].
  exact (proj1 (proj2 (proj2 (get_profile_placeholder [])))
           (Call_save_skills "python, sql")
           (Ok ("✅ Skills saved: " ++ repr (skills_of "python, sql")))
           (dict_set "skills" (skills_of "python, sql") [])
           Hw eq_refl eq_refl).
Defined.

(** From the empty profile on, through any sequence of tool calls and
    clears, the profile keeps its shape, and in each state it reaches every
    tool returns a string on any arguments and raises nothing. *)
Theorem reachable_tools_never_raise d c :
  reachable d →
  profile_state d = true
  ∧ ∃ s d', invoke c d = (Ok s, d') ∧ reachable d'.
Proof.
  intros Hd. pose proof (reachable_profile_state d Hd) as Hshape.
  split; [done|].
  assert (∃ s d', invoke c d = (Ok s, d')) as (s & d' & Hrun).
  { destruct c; simpl.
    - rewrite save_branch_run. eauto.
    - rewrite save_skills_run. eauto.
    - rewrite save_project_run by done. eauto.
    - unfold get_profile. run. eauto.
    - run. eauto.
    - run. eauto.
    - run. eauto.
    - run. eauto. }
  exists s, d'. split; [done|]. by eapply reach_invoke.
Qed.

Lemma reachable_tools_never_raise_witness :
  reachable (dict_set "branch" (VStr "CSE") [])
  ∧ profile_state (dict_set "branch" (VStr "CSE") []) = true
  ∧ ∃ s d',
      invoke (Call_save_project "Cache" "Built a cache")
        (dict_set "branch" (VStr "CSE") []) = (Ok s, d')
      ∧ reachable d'.
Proof.
  assert (reachable (dict_set "branch" (VStr "CSE") [])) as Hr
    by exact (reach_invoke [] (Call_save_branch "CSE")
                (Ok "✅ Branch saved: CSE")
                (dict_set "branch" (VStr "CSE") []) reach_start eq_refl).
  split; [exact Hr|].
  exact (reachable_tools_never_raise _
           (Call_save_project "Cache" "Built a cache") Hr).
Defined.

End AppSpec.

(* ===================================================================== *)
(** * Properties of the adapter *)
(* ===================================================================== *)

Module UtilsSpec.
Import Py Utils.

#[local] Arguments String.eqb : simpl never.
#[local] Arguments List.last : simpl never.

Ltac run :=
  unfold mbind, mret, M_bind, M_ret, bind, ret, modify, get, raise in *;
  cbv beta iota zeta in *.

Example profile_bot_constructed :
  __init__ 140234 "ProfileBot" "gemini-2.0-flash" "You are ProfileBot."
    (Some ["save_branch"; "save_skills"; "save_project"; "get_profile"])
    (fresh_process [("key.json", service_account_file (JStr "demo"))]) =
  (Ok profile_bot, started_process).
Proof. vm_compute. reflexivity. Qed.

(** ** Computations that only print *)

Lemma set_stdout_nil w : set_stdout (λ out, (out ++ [])%list) w = w.
Proof. destruct w. unfold set_stdout; simpl. by rewrite app_nil_r. Qed.

Lemma set_stdout_app l1 l2 w :
  set_stdout (λ out, (out ++ l2)%list) (set_stdout (λ out, (out ++ l1)%list) w)
  = set_stdout (λ out, (out ++ (l1 ++ l2))%list) w.
Proof. destruct w. unfold set_stdout; simpl. by rewrite app_assoc. Qed.

Lemma prints_ret {A} (v : A) : prints (mret v) v.
Proof. intros w. exists []. run. by rewrite set_stdout_nil. Qed.

Lemma prints_print line : prints (print line) tt.
Proof. intros w. by exists [line]. Qed.

Lemma prints_bind {A B} (m : M World A) (k : A → M World B) v v' :
  prints m v → prints (k v) v' → prints (m ≫= k) v'.
Proof.
  intros Hm Hk w. destruct (Hm w) as [l1 H1].
  destruct (Hk (set_stdout (λ out, (out ++ l1)%list) w)) as [l2 H2].
  exists (l1 ++ l2)%list. run. rewrite H1, H2. by rewrite set_stdout_app.
Qed.

Lemma prints_foldM {A B} (f : B → A → M World B) (g : B → A → B) l :
  (∀ b x, prints (f b x) (g b x)) →
  ∀ b, prints (foldM f b l) (fold_left g l b).
Proof.
  intros Hf. induction l as [|x l IH]; intros b; simpl.
  - apply (prints_ret b).
  - apply (prints_bind (f b x) _ (g b x)); [apply Hf|apply IH].
Qed.

Lemma prints_for_each {A} (l : list A) (body : A → M World unit) :
  (∀ x, prints (body x) tt) → prints (for_each l body) tt.
Proof.
  intros Hbody. unfold for_each.
  assert (∀ b : unit, fold_left (λ _ (_ : A), tt) l b = tt) as Hu
    by (intros []; induction l; simpl; auto).
  pose proof (prints_foldM (λ _ x, body x) (λ _ _, tt) l) as H.
  intros w. destruct (H (λ _ x, Hbody x) tt w) as [lines Hl].
  exists lines. by rewrite Hl, Hu.
Qed.

(** ** The loop over the events *)

Lemma on_part_prints fr p : prints (on_part fr p) (pick fr p).
Proof.
  unfold on_part, pick, answers, text_bearing.
  destruct (function_call p) as [fc|].
  - eapply prints_bind; [apply prints_print|apply prints_ret].
  - destruct (text p) as [[|c t]|]; apply prints_ret.
Qed.

Lemma on_event_prints fr e :
  prints (on_event fr e) (fold_left pick (event_parts e) fr).
Proof.
  unfold on_event, event_parts.
  eapply prints_bind with (v := fold_left pick
    match content e with Some c => default [] (parts c) | None => [] end fr).
  - destruct (content e) as [c|]; [|apply prints_ret].
    destruct (parts c) as [ps|]; [|apply prints_ret].
    apply prints_foldM. apply on_part_prints.
  - eapply prints_bind; [|apply prints_ret].
    destruct (actions e) as [acts|]; [|apply prints_ret].
    apply prints_for_each. intros action.
    destruct (function_calls action) as [fcs|]; [|apply prints_ret].
    apply prints_for_each. intros fc. apply prints_print.
Qed.

Lemma fold_left_flat_map {A B C} (g : C → B → C) (f : A → list B) l c :
  fold_left g (flat_map f l) c = fold_left (λ c x, fold_left g (f x) c) l c.
Proof.
  revert c. induction l as [|x l IH]; intros c; simpl; [done|].
  by rewrite fold_left_app, IH.
Qed.

Lemma last_cons_default {A} (x d : A) l :
  List.last (x :: l) d = List.last l x.
Proof.
  revert x d. induction l as [|y l IH]; intros x d; [done|].
  change (List.last (x :: y :: l) d) with (List.last (y :: l) d).
  by rewrite !IH.
Qed.

Lemma fold_left_pick ps fr :
  fold_left pick ps fr =
    List.last (omap text (List.filter answers ps)) fr.
Proof.
  revert fr. induction ps as [|p ps IH]; intros fr; simpl; [done|].
  rewrite IH. unfold pick.
  destruct (answers p) eqn:Hp; simpl; [|done].
  unfold answers, text_bearing in Hp.
  destruct (function_call p); [done|].
  destruct (text p) as [t|]; [|done]. simpl.
  by rewrite last_cons_default.
Qed.

Lemma events_loop_prints events fr :
  prints (foldM on_event fr events) (List.last (answer_texts events) fr).
Proof.
  unfold answer_texts, stream_parts.
  rewrite <- fold_left_pick, fold_left_flat_map.
  apply prints_foldM. apply on_event_prints.
Qed.

(** ** The session of an adapter *)

Lemma adapter_ok_inv a w :
  adapter_ok a w = true →
  runner_app_name (_runner a) = _app_name
  ∧ ∃ sessions, _session_service w = Some sessions
      ∧ (_session_created a = true → is_Some (sessions !! key_of a)).
Proof.
  unfold adapter_ok. intros [Hn Hs]%andb_prop.
  apply String.eqb_eq in Hn. split; [done|].
  destruct (_session_service w) as [sessions|]; [|done].
  exists sessions. split; [done|]. intros Hc. rewrite Hc in Hs. simpl in Hs.
  by apply bool_decide_eq_true in Hs.
Qed.

Lemma set__session_created_id a :
  _session_created a = true → set__session_created true a = a.
Proof. destruct a; simpl. by intros ->. Qed.

Lemma set_session_service_id w sessions :
  _session_service w = Some sessions →
  set_session_service (Some sessions) w = w.
Proof. destruct w; simpl. by intros ->. Qed.

Lemma _ensure_session_async_run a w sessions :
  _session_service w = Some sessions →
  (_session_created a = true → is_Some (sessions !! key_of a)) →
  _ensure_session_async (a, w) =
    (Ok tt,
     (set__session_created true a,
      set_session_service
        (Some (<[key_of a := default [] (sessions !! key_of a)]> sessions)) w)).
Proof.
  intros Hs Hc. unfold _ensure_session_async, self. run. simpl.
  destruct (_session_created a) eqn:Hcr.
  - destruct (Hc eq_refl) as [h Hh]. rewrite Hh; simpl.
    rewrite insert_id by done.
    by rewrite set__session_created_id, (set_session_service_id _ _ Hs).
  - unfold try_except, on_world, get_session, create_session, update_self.
    run. simpl. rewrite Hs.
    destruct (sessions !! key_of a) as [h|] eqn:Hh; simpl.
    + rewrite insert_id by done. by rewrite (set_session_service_id _ _ Hs).
    + rewrite Hs. done.
Qed.

(** ** One turn, run symbolically *)

Section Turn.
Context `{External}.

Lemma session_history_eq a w sessions :
  _session_service w = Some sessions →
  session_history a w = default [] (sessions !! key_of a).
Proof. unfold session_history. by intros ->. Qed.

Lemma _run_agent_run a w message events err :
  adapter_ok a w = true →
  the_turn a w message = (events, err) →
  ∃ lines,
    _run_agent message (a, w) =
      (match err with
       | Some e => Raise e
       | None => Ok (response_of events)
       end,
       (set__session_created true a, after_turn a w message events lines)).
Proof.
  intros Hok Hturn.
  destruct (adapter_ok_inv _ _ Hok) as (Happ & sessions & Hs & Hc).
  unfold the_turn in Hturn. rewrite (session_history_eq _ _ _ Hs) in Hturn.
  set (h := default [] (sessions !! key_of a)) in *.
  set (w1 := set_session_service (Some (<[key_of a := h]> sessions)) w).
  set (w2 := set_session_service
     (Some (<[key_of a := (h ++ UserMessage message :: map ModelEvent events)%list]>
              sessions))
     (set_runner_calls (λ calls, (calls ++ [call_of a message])%list) w)).
  destruct (events_loop_prints events "" w2) as [lines Hloop].
  exists lines. unfold _run_agent. run.
  rewrite (_ensure_session_async_run _ _ _ Hs Hc). fold h. fold w1.
  unfold self at 1. simpl.
  assert (on_world (run_async (_runner a) (_user_id a) (_session_id a) message)
            (set__session_created true a, w1)
          = (Ok (events, err), (set__session_created true a, w2))) as Hrun.
  { unfold on_world, run_async. run. simpl.
    rewrite Happ. fold (key_of a). rewrite lookup_insert_eq. rewrite Hturn.
    simpl. rewrite insert_insert_eq. reflexivity. }
  replace (_runner (set__session_created true a)) with (_runner a) by done.
  replace (_user_id (set__session_created true a)) with (_user_id a) by done.
  replace (_session_id (set__session_created true a)) with (_session_id a)
    by done.
  rewrite Hrun. unfold on_world at 1. simpl. rewrite Hloop.
  assert (set_stdout (λ out, (out ++ lines)%list) w2
          = after_turn a w message events lines) as ->.
  { unfold after_turn, w2. rewrite (session_history_eq _ _ _ Hs). fold h.
    destruct w; simpl in *. by rewrite Hs. }
  unfold response_of.
  destruct err as [e|]; simpl; [done|].
  by destruct (List.last (answer_texts events) "").
Qed.

(** ** [chat], by cases on the event loop *)

Lemma chat_cases a w message image_path :
  ∃ lines,
    let w1 := set_stdout (λ out, (out ++ lines)%list) w in
    chat message image_path (a, w) =
      match event_loop w with
      | NoLoop => _run_agent message (a, set_event_loop Idle w1)
      | _ =>
          match _run_agent message (a, w1) with
          | (Raise e, (a', w')) =>
              if is_RuntimeError e
              then _run_agent message (a', set_event_loop Idle w')
              else (Raise e, (a', w'))
          | r => r
          end
      end.
Proof.
  assert (∃ lines, ∀ k : M Self string,
    (on_world (print ("⏳ " ++ name a ++ " is thinking..."));;
     match image_path with
     | Some (String _ _ as path) =>
         match open_rb path with
         | Ok image_bytes =>
             on_world (print ("📸 [Attached Image: " ++ path ++ "]"))
         | Raise e =>
             on_world (print ("❌ Error loading image: " ++ exn_str e))
         end
     | _ => mret tt
     end;; k) (a, w) = k (a, set_stdout (λ out, (out ++ lines)%list) w))
    as [lines Hpre].
  { destruct image_path as [[|c path]|].
    - exists ["⏳ " ++ name a ++ " is thinking..."]. intros k. reflexivity.
    - destruct (open_rb (String c path)) as [bytes|e] eqn:Ho.
      + exists ["⏳ " ++ name a ++ " is thinking...";
                "📸 [Attached Image: " ++ String c path ++ "]"].
        intros k. run. unfold on_world, print. run. simpl.
        by rewrite set_stdout_app.
      + exists ["⏳ " ++ name a ++ " is thinking...";
                "❌ Error loading image: " ++ exn_str e].
        intros k. run. unfold on_world, print. run. simpl.
        by rewrite set_stdout_app.
    - exists ["⏳ " ++ name a ++ " is thinking..."]. intros k. reflexivity. }
  exists lines. simpl. unfold chat.
  change ((self ≫= _) (a, w)) with
    ((on_world (print ("⏳ " ++ name a ++ " is thinking..."));;
     match image_path with
     | Some (String _ _ as path) =>
         match open_rb path with
         | Ok image_bytes =>
             on_world (print ("📸 [Attached Image: " ++ path ++ "]"))
         | Raise e =>
             on_world (print ("❌ Error loading image: " ++ exn_str e))
         end
     | _ => mret tt
     end;;
     try_except
       (loop ← on_world get_event_loop;
        match loop with
        | Running => _run_agent message
        | _ => _run_agent message
        end)
       is_RuntimeError
       (on_world (modify (set_event_loop Idle));; _run_agent message)) (a, w)).
  rewrite Hpre. unfold try_except, on_world, get_event_loop. run. simpl.
  destruct (event_loop w) eqn:Hl; simpl; [done| |].
  - destruct (_run_agent message _) as [[r|e] [a' w']]; [done|].
    by destruct (is_RuntimeError e).
  - destruct (_run_agent message _) as [[r|e] [a' w']]; [done|].
    by destruct (is_RuntimeError e).
Qed.

(** Printing and the event loop do not matter to the session. *)
Lemma adapter_ok_frame a w w' :
  _session_service w' = _session_service w → adapter_ok a w' = adapter_ok a w.
Proof. unfold adapter_ok. by intros ->. Qed.


Lemma adapter_ok_after_turn a w message events lines :
  adapter_ok a w = true →
  adapter_ok (set__session_created true a)
    (after_turn a w message events lines) = true.
Proof.
  intros [Happ _]%adapter_ok_inv. unfold adapter_ok; simpl.
  rewrite Happ, String.eqb_refl; simpl.
  apply bool_decide_eq_true.
  change (key_of (set__session_created true a)) with (key_of a).
  rewrite lookup_insert_eq. by eexists.
Qed.



(** Whatever the turn does, [chat] leaves the adapter as it was up to the
    created flag, and every call it makes to the runner (one, or two when
    a [RuntimeError] sends it through the handler) is the call for this
    adapter's session. *)
Lemma chat_calls a w message image_path :
  adapter_ok a w = true →
  ∃ r w' n,
    chat message image_path (a, w) = (r, (set__session_created true a, w'))
    ∧ adapter_ok (set__session_created true a) w' = true
    ∧ runner_calls w' =
        (runner_calls w ++ replicate (S n) (call_of a message))%list.
Proof.
  intros Hok.
  destruct (chat_cases a w message image_path) as [lines Hchat].
  simpl in Hchat. rewrite Hchat. clear Hchat.
  set (w1 := set_stdout (λ out, (out ++ lines)%list) w).
  assert (∀ a0 w0, adapter_ok a0 w0 = true →
            ∃ r w', _run_agent message (a0, w0) =
                      (r, (set__session_created true a0, w'))
              ∧ adapter_ok (set__session_created true a0) w' = true
              ∧ runner_calls w' = (runner_calls w0 ++ [call_of a0 message])%list)
    as Hrun.
  { intros a0 w0 Hok0.
    destruct (the_turn a0 w0 message) as [events err] eqn:Hturn.
    destruct (_run_agent_run _ _ _ _ _ Hok0 Hturn) as [lines0 Hr].
    do 2 eexists. split; [exact Hr|]. split; [by apply adapter_ok_after_turn|].
    reflexivity. }
  assert (adapter_ok a w1 = true) as Hok1
    by (rewrite (adapter_ok_frame _ w w1); [done|by destruct w]).
  assert (runner_calls w1 = runner_calls w) as Hc1 by by destruct w.
  destruct (event_loop w) eqn:Hloop.
  - destruct (Hrun a (set_event_loop Idle w1)) as (r & w' & Hr & Hok' & Hc').
    { by rewrite (adapter_ok_frame _ w1 (set_event_loop Idle w1)). }
    exists r, w', 0. rewrite Hr. split; [done|]. split; [done|].
    rewrite Hc'. simpl. by rewrite ?Hc1.
  - destruct (Hrun a w1 Hok1) as (r & w' & Hr & Hok' & Hc'). rewrite Hr.
    destruct r as [v|e].
    { exists (Ok v), w', 0. split; [done|]. split; [done|].
      rewrite Hc'. simpl. by rewrite ?Hc1. }
    destruct (is_RuntimeError e).
    + destruct (Hrun (set__session_created true a) (set_event_loop Idle w'))
        as (r2 & w2 & Hr2 & Hok2 & Hc2).
      { by rewrite (adapter_ok_frame _ w' (set_event_loop Idle w')). }
      exists r2, w2, 1. rewrite Hr2. split; [done|]. split; [done|].
      rewrite Hc2. simpl. rewrite Hc', ?Hc1. by rewrite <- app_assoc.
    + exists (Raise e), w', 0. split; [done|]. split; [done|].
      rewrite Hc'. simpl. by rewrite ?Hc1.
  - destruct (Hrun a w1 Hok1) as (r & w' & Hr & Hok' & Hc'). rewrite Hr.
    destruct r as [v|e].
    { exists (Ok v), w', 0. split; [done|]. split; [done|].
      rewrite Hc'. simpl. by rewrite ?Hc1. }
    destruct (is_RuntimeError e).
    + destruct (Hrun (set__session_created true a) (set_event_loop Idle w'))
        as (r2 & w2 & Hr2 & Hok2 & Hc2).
      { by rewrite (adapter_ok_frame _ w' (set_event_loop Idle w')). }
      exists r2, w2, 1. rewrite Hr2. split; [done|]. split; [done|].
      rewrite Hc2. simpl. rewrite Hc', ?Hc1. by rewrite <- app_assoc.
    + exists (Raise e), w', 0. split; [done|]. split; [done|].
      rewrite Hc'. simpl. by rewrite ?Hc1.
Qed.

End Turn.

(** ** What the stream holds *)





(** Where no part carries a function call together with a text, the
    answers are the text-bearing parts. *)
Lemma answer_texts_disjoint events :
  Forall (λ p, function_call p = None ∨ text_bearing p = false)
    (stream_parts events) →
  answer_texts events = text_bearing_texts events.
Proof.
  unfold answer_texts, text_bearing_texts.
  induction (stream_parts events) as [|p ps IH]; [done|].
  intros [Hp Hps]%Forall_cons. simpl. specialize (IH Hps).
  unfold answers at 1.
  destruct Hp as [-> | ->]; [|by destruct (function_call p)].
  destruct (text_bearing p); simpl; [|done].
  destruct (text p); [f_equal|]; exact IH.
Qed.





Section Claims.
Context `{External}.




(** ** [clear_memory] *)

Lemma clear_memory_run a w :
  clear_memory (a, w) =
    (Ok tt,
     (set__session_created false (set__session_id (cleared_session_id a) a),
      set_stdout
        (λ out, (out ++ [("🧹 Memory cleared for " ++ name a ++ ".")%string])%list)
        w)).
Proof. reflexivity. Qed.

Lemma adapter_ok_clear_memory a w sid lines :
  adapter_ok a w = true →
  adapter_ok (set__session_created false (set__session_id sid a))
    (set_stdout (λ out, (out ++ lines)%list) w) = true.
Proof.
  intros (Happ & sessions & Hs & _)%adapter_ok_inv.
  unfold adapter_ok; simpl. by rewrite Happ, String.eqb_refl, Hs.
Qed.

(** The identifier depends on the name and the identity of the object
    alone: neither changes, so neither does the identifier. *)
Lemma cleared_session_id_stable a b sid :
  cleared_session_id
    (set__session_created b (set__session_created false (set__session_id sid a)))
  = cleared_session_id a.
Proof. reflexivity. Qed.




(** C1, at the sequence that breaks it: [clear_memory], [chat],
    [clear_memory], [chat].  The second [clear_memory] computes the
    identifier the first one computed, and the second [chat] sends its
    message to the session the first [chat] used. *)
Theorem clear_memory_reuses_session_id a w m1 i1 m2 i2 :
  adapter_ok a w = true →
  ∃ a1 w1 r2 a2 w2 a3 w3 r4 a4 w4 n2 n4,
    clear_memory (a, w) = (Ok tt, (a1, w1))
    ∧ chat m1 i1 (a1, w1) = (r2, (a2, w2))
    ∧ clear_memory (a2, w2) = (Ok tt, (a3, w3))
    ∧ chat m2 i2 (a3, w3) = (r4, (a4, w4))
    ∧ _session_id a3 = _session_id a1
    ∧ runner_calls w2 = (runner_calls w ++ replicate (S n2) (call_of a1 m1))%list
    ∧ runner_calls w4 = (runner_calls w2 ++ replicate (S n4) (call_of a1 m2))%list
    ∧ call_session_id (call_of a1 m1) = call_session_id (call_of a1 m2).
Proof.
  intros Hok.
  pose proof (adapter_ok_clear_memory a w (cleared_session_id a)
                ["🧹 Memory cleared for " ++ name a ++ "."] Hok) as Hok1.
  destruct (chat_calls _ _ m1 i1 Hok1) as (r2 & w2 & n2 & Hc2 & Hok2 & Hl2).
  set (a1 := set__session_created false (set__session_id (cleared_session_id a) a))
    in *.
  set (a2 := set__session_created true a1) in *.
  pose proof (adapter_ok_clear_memory a2 w2 (cleared_session_id a2)
                ["🧹 Memory cleared for " ++ name a2 ++ "."] Hok2) as Hok3.
  destruct (chat_calls _ _ m2 i2 Hok3) as (r4 & w4 & n4 & Hc4 & Hok4 & Hl4).
  do 12 eexists.
  split; [apply clear_memory_run|]. split; [exact Hc2|].
  split; [apply clear_memory_run|]. split; [exact Hc4|].
  split; [reflexivity|]. split; [exact Hl2|]. split; [|reflexivity].
  exact Hl4.
Qed.

End Claims.

(** ** The theorems at ProfileBot *)





Lemma clear_memory_reuses_session_id_witness :
  adapter_ok profile_bot started_process = true
  ∧ ∃ a1 w1 r2 a2 w2 a3 w3 r4 a4 w4 n2 n4,
      @clear_memory (scripted two_answers_stream)
        (profile_bot, started_process) = (Ok tt, (a1, w1))
      ∧ @chat (scripted two_answers_stream) "a" None (a1, w1) = (r2, (a2, w2))
      ∧ @clear_memory (scripted two_answers_stream) (a2, w2) = (Ok tt, (a3, w3))
      ∧ @chat (scripted two_answers_stream) "b" None (a3, w3) = (r4, (a4, w4))
      ∧ _session_id a3 = _session_id a1
      ∧ runner_calls w2 =
          (runner_calls started_process ++ replicate (S n2) (call_of a1 "a"))%list
      ∧ runner_calls w4 =
          (runner_calls w2 ++ replicate (S n4) (call_of a1 "b"))%list
      ∧ call_session_id (call_of a1 "a") = call_session_id (call_of a1 "b").
Proof.
  split; [reflexivity|].
  apply (@clear_memory_reuses_session_id (scripted two_answers_stream)
           profile_bot started_process "a" None "b" None).
  reflexivity.
Defined.

(** The same sequence, run: both messages reach the session
    "session_ProfileBot_140234_35169", and the second turn is played on
    the history the first one left. *)
Example clear_memory_twice_run :
  let ext := scripted two_answers_stream in
  let st1 := (@clear_memory ext (profile_bot, started_process)).2 in
  let st2 := (@chat ext "a" None st1).2 in
  let st3 := (@clear_memory ext st2).2 in
  let st4 := (@chat ext "b" None st3).2 in
  map call_session_id (runner_calls st4.2) =
    ["session_ProfileBot_140234_35169"; "session_ProfileBot_140234_35169"]
  ∧ _session_created st3.1 = false
  ∧ session_history st3.1 st3.2 =
      (UserMessage "a" :: map ModelEvent two_answers_stream)%list.
Proof. vm_compute. repeat split; reflexivity. Qed.

(** ** Credentials *)

Lemma scan_run files w :
  scan files w = (Ok (first_project_id files, first_sa_file files), w).
Proof.
  unfold first_project_id, first_sa_file, first_service_account.
  induction files as [|[f loaded] files IH]; [done|].
  simpl. unfold try_except, probe. run.
  destruct loaded as [data|e]; simpl; [|exact IH].
  destruct data as [| | | | |members]; simpl; try exact IH.
  destruct (eq_str (default JNull (member "type" members)) "service_account");
    simpl; [done|exact IH].
Qed.

Lemma _get_project_id_run w :
  _get_project_id w =
    (Ok (first_project_id (cwd_json w), first_sa_file (cwd_json w)), w).
Proof. unfold _get_project_id. run. apply scan_run. Qed.

Lemma _setup_vertex_auth_falsy w :
  truthy (first_project_id (cwd_json w)) = false →
  _setup_vertex_auth w = (Raise (ValueError no_credentials), w).
Proof.
  intros Hf. unfold _setup_vertex_auth. run.
  rewrite _get_project_id_run. by rewrite Hf.
Qed.


Lemma _setup_vertex_auth_not_str w :
  truthy (first_project_id (cwd_json w)) = true →
  (∀ s, first_project_id (cwd_json w) ≠ JStr s) →
  ∃ w', _setup_vertex_auth w = (Raise (TypeError "str expected"), w').
Proof.
  intros Ht Hn. unfold _setup_vertex_auth. run.
  rewrite _get_project_id_run, Ht. simpl.
  unfold setenv, getenv, print. run.
  destruct (first_project_id (cwd_json w)) as [| | |s| |]; try done;
    try (by destruct (Hn s));
    destruct (first_sa_file (cwd_json w)) as [[|c f]|]; simpl; eauto.
Qed.

Lemma __init___run self_id name model instruction tools w :
  __init__ self_id name model instruction tools w =
    match _setup_vertex_auth w with
    | (Ok _, w') =>
        (Ok {| id := self_id; name := name; model_name := model;
               system_instruction := instruction; tools := default [] tools;
               _session_created := false;
               _user_id := "user_" ++ name;
               _session_id := "session_" ++ name ++ "_" ++ str_of_int self_id;
               _agent := {| adk_name := name; adk_model := model;
                            adk_instruction := instruction;
                            adk_tools := default [] tools |};
               _runner := {| runner_agent :=
                               {| adk_name := name; adk_model := model;
                                  adk_instruction := instruction;
                                  adk_tools := default [] tools |};
                             runner_app_name := _app_name |} |},
         match _session_service w' with
         | None => set_session_service (Some ∅) w'
         | Some _ => w'
         end)
    | (Raise e, w') => (Raise e, w')
    end.
Proof.
  unfold __init__. run.
  destruct (_setup_vertex_auth w) as [[[project_id location]|e] w']; [|done].
  by destruct (_session_service w').
Qed.






(** ** Beyond the stated properties: the turn in closed form *)

Lemma prints_as_ret {A} (v : A) : prints_as (mret v) v [].
Proof. intros w. run. by rewrite set_stdout_nil. Qed.

Lemma prints_as_print line : prints_as (print line) tt [line].
Proof. intros w. reflexivity. Qed.

Lemma prints_as_bind {A B} (m : M World A) (k : A → M World B) v v' l1 l2 :
  prints_as m v l1 → prints_as (k v) v' l2 →
  prints_as (m ≫= k) v' (l1 ++ l2).
Proof.
  intros Hm Hk w. run. rewrite Hm, Hk. by rewrite set_stdout_app.
Qed.

Lemma prints_as_eq {A} (m : M World A) v l l' :
  l = l' → prints_as m v l → prints_as m v l'.
Proof. by intros ->. Qed.

Lemma prints_as_foldM {A B} (f : B → A → M World B) (g : B → A → B)
    (ls : A → list string) l :
  (∀ b x, prints_as (f b x) (g b x) (ls x)) →
  ∀ b, prints_as (foldM f b l) (fold_left g l b) (flat_map ls l).
Proof.
  intros Hf. induction l as [|x l IH]; intros b; simpl.
  - apply (prints_as_ret b).
  - apply (prints_as_bind (f b x) _ (g b x)); [apply Hf|apply IH].
Qed.

Lemma prints_as_for_each {A} (l : list A) (body : A → M World unit)
    (ls : A → list string) :
  (∀ x, prints_as (body x) tt (ls x)) →
  prints_as (for_each l body) tt (flat_map ls l).
Proof.
  intros Hbody. unfold for_each.
  assert (∀ b : unit, fold_left (λ _ (_ : A), tt) l b = tt) as Hu
    by (intros []; induction l; simpl; auto).
  intros w.
  rewrite (prints_as_foldM (λ _ x, body x) (λ _ _, tt) ls l
             (λ _ x, Hbody x) tt w).
  by rewrite Hu.
Qed.

Lemma on_part_prints_as fr p :
  prints_as (on_part fr p) (pick fr p) (part_lines p).
Proof.
  unfold on_part, pick, answers, text_bearing, part_lines.
  destruct (function_call p) as [fc|].
  - eapply prints_as_eq; [|eapply prints_as_bind;
      [apply prints_as_print|apply prints_as_ret]]. done.
  - destruct (text p) as [[|c t]|]; apply prints_as_ret.
Qed.

Lemma on_event_prints_as fr e :
  prints_as (on_event fr e) (fold_left pick (event_parts e) fr)
    (event_lines e).
Proof.
  unfold on_event, event_lines, event_parts.
  eapply prints_as_bind with (v := fold_left pick
    match content e with Some c => default [] (parts c) | None => [] end fr).
  - destruct (content e) as [c|]; [|apply prints_as_ret].
    destruct (parts c) as [ps|]; [|apply prints_as_ret].
    apply prints_as_foldM. apply on_part_prints_as.
  - eapply prints_as_eq; [|eapply prints_as_bind; [|apply prints_as_ret]].
    { apply app_nil_r. }
    destruct (actions e) as [acts|]; [|apply prints_as_ret].
    apply prints_as_for_each. intros action. unfold action_lines.
    destruct (function_calls action) as [fcs|]; [|apply prints_as_ret].
    eapply prints_as_eq; [|apply prints_as_for_each with
      (ls := λ fc, ["🛠️ [Tool Call]: " ++ fc_name fc])].
    { induction fcs as [|fc fcs IH]; simpl; [done|]. by rewrite IH. }
    intros fc. apply prints_as_print.
Qed.

Lemma events_loop_prints_as events fr :
  prints_as (foldM on_event fr events) (List.last (answer_texts events) fr)
    (stream_lines events).
Proof.
  unfold answer_texts, stream_parts, stream_lines.
  rewrite <- fold_left_pick, fold_left_flat_map.
  apply prints_as_foldM. apply on_event_prints_as.
Qed.

Section Closed.
Context `{External}.

Lemma _run_agent_exact a w message :
  adapter_ok a w = true →
  _run_agent message (a, w) = run_turn_on a w message.
Proof.
  intros Hok. unfold run_turn_on.
  destruct (the_turn a w message) as [events err] eqn:Hturn.
  destruct (adapter_ok_inv _ _ Hok) as (Happ & sessions & Hs & Hc).
  unfold the_turn in Hturn. rewrite (session_history_eq _ _ _ Hs) in Hturn.
  set (h := default [] (sessions !! key_of a)) in *.
  set (w1 := set_session_service (Some (<[key_of a := h]> sessions)) w).
  set (w2 := set_session_service
     (Some (<[key_of a := (h ++ UserMessage message :: map ModelEvent events)%list]>
              sessions))
     (set_runner_calls (λ calls, (calls ++ [call_of a message])%list) w)).
  pose proof (events_loop_prints_as events "" w2) as Hloop.
  unfold _run_agent. run.
  rewrite (_ensure_session_async_run _ _ _ Hs Hc). fold h. fold w1.
  unfold self at 1. simpl.
  assert (on_world (run_async (_runner a) (_user_id a) (_session_id a) message)
            (set__session_created true a, w1)
          = (Ok (events, err), (set__session_created true a, w2))) as Hrun.
  { unfold on_world, run_async. run. simpl.
    rewrite Happ. fold (key_of a). rewrite lookup_insert_eq. rewrite Hturn.
    simpl. rewrite insert_insert_eq. reflexivity. }
  replace (_runner (set__session_created true a)) with (_runner a) by done.
  replace (_user_id (set__session_created true a)) with (_user_id a) by done.
  replace (_session_id (set__session_created true a)) with (_session_id a)
    by done.
  rewrite Hrun. unfold on_world at 1. simpl. rewrite Hloop.
  assert (set_stdout (λ out, (out ++ stream_lines events)%list) w2
          = after_turn a w message events (stream_lines events)) as ->.
  { unfold after_turn, w2. rewrite (session_history_eq _ _ _ Hs). fold h.
    destruct w; simpl in *. by rewrite Hs. }
  unfold turn_outcome, response_of.
  destruct err as [e|]; simpl; [done|].
  by destruct (List.last (answer_texts events) "").
Qed.

Lemma run_turn_on_adapter_ok a w message r a' w' :
  adapter_ok a w = true →
  run_turn_on a w message = (r, (a', w')) →
  a' = set__session_created true a ∧ adapter_ok a' w' = true.
Proof.
  intros Hok. unfold run_turn_on.
  destruct (the_turn a w message) as [events err].
  intros [= _ <- <-]. split; [done|]. by apply adapter_ok_after_turn.
Qed.

Lemma chat_prelude_run a w image_path (k : M Self string) :
  (on_world (print ("⏳ " ++ name a ++ " is thinking..."));;
   match image_path with
   | Some (String _ _ as path) =>
       match open_rb path with
       | Ok image_bytes =>
           on_world (print ("📸 [Attached Image: " ++ path ++ "]"))
       | Raise e =>
           on_world (print ("❌ Error loading image: " ++ exn_str e))
       end
   | _ => mret tt
   end;; k) (a, w)
  = k (a, set_stdout (λ out, (out ++ chat_prelude a image_path)%list) w).
Proof.
  unfold chat_prelude.
  destruct image_path as [[|c path]|]; [reflexivity| |reflexivity].
  destruct (open_rb (String c path)) as [bytes|e] eqn:Ho.
  - run. unfold on_world, print. run. simpl. by rewrite set_stdout_app.
  - run. unfold on_world, print. run. simpl. by rewrite set_stdout_app.
Qed.

(** [chat] on a constructed adapter is its closed form. *)
Lemma chat_exact a w message image_path :
  adapter_ok a w = true →
  chat message image_path (a, w) = chat_on a w message image_path.
Proof.
  intros Hok. unfold chat, chat_on.
  change ((self ≫= _) (a, w)) with
    ((on_world (print ("⏳ " ++ name a ++ " is thinking..."));;
     match image_path with
     | Some (String _ _ as path) =>
         match open_rb path with
         | Ok image_bytes =>
             on_world (print ("📸 [Attached Image: " ++ path ++ "]"))
         | Raise e =>
             on_world (print ("❌ Error loading image: " ++ exn_str e))
         end
     | _ => mret tt
     end;;
     try_except
       (loop ← on_world get_event_loop;
        match loop with
        | Running => _run_agent message
        | _ => _run_agent message
        end)
       is_RuntimeError
       (on_world (modify (set_event_loop Idle));; _run_agent message)) (a, w)).
  rewrite chat_prelude_run.
  set (w1 := set_stdout (λ out, (out ++ chat_prelude a image_path)%list) w).
  assert (adapter_ok a w1 = true) as Hok1
    by (rewrite (adapter_ok_frame _ w w1); [done|by destruct w]).
  assert (event_loop w1 = event_loop w) as Hl by by destruct w.
  unfold try_except, on_world, get_event_loop. run. simpl. rewrite ?Hl.
  destruct (event_loop w) eqn:Hloop; simpl.
  - apply _run_agent_exact.
    by rewrite (adapter_ok_frame _ w1 (set_event_loop Idle w1)).
  - rewrite (_run_agent_exact _ _ _ Hok1).
    destruct (run_turn_on a w1 message) as [[v|e] [a' w']] eqn:Hr; [done|].
    destruct (is_RuntimeError e); [|done].
    destruct (run_turn_on_adapter_ok _ _ _ _ _ _ Hok1 Hr) as [_ Hok'].
    apply _run_agent_exact.
    by rewrite (adapter_ok_frame _ w' (set_event_loop Idle w')).
  - rewrite (_run_agent_exact _ _ _ Hok1).
    destruct (run_turn_on a w1 message) as [[v|e] [a' w']] eqn:Hr; [done|].
    destruct (is_RuntimeError e); [|done].
    destruct (run_turn_on_adapter_ok _ _ _ _ _ _ Hok1 Hr) as [_ Hok'].
    apply _run_agent_exact.
    by rewrite (adapter_ok_frame _ w' (set_event_loop Idle w')).
Qed.

End Closed.

(** ** Beyond the stated properties: sessions, turns and [chat] *)

#[local] Arguments chat_prelude : simpl never.

Section Behaviour.
Context `{External}.


Lemma sessions_of_after_turn a w message events lines :
  sessions_of (after_turn a w message events lines) =
    <[key_of a := (session_history a w ++ UserMessage message
                     :: map ModelEvent events)%list]> (sessions_of w).
Proof. reflexivity. Qed.

Lemma session_history_sessions_of a w :
  session_history a w = default [] (sessions_of w !! key_of a).
Proof.
  unfold session_history, sessions_of.
  destruct (_session_service w); [done|]. simpl. by rewrite lookup_empty.
Qed.

(** [_ensure_session_async] creates the session of the adapter when the
    registry has none, with an empty history; a session that is there keeps
    its history, also when the created flag is off; no other session is
    touched; and running it again changes nothing. *)
Theorem ensure_session_keeps_history a w :
  adapter_ok a w = true →
  ∃ w',
    _ensure_session_async (a, w) = (Ok tt, (set__session_created true a, w'))
    ∧ sessions_of w' !! key_of a = Some (session_history a w)
    ∧ (∀ k, k ≠ key_of a → sessions_of w' !! k = sessions_of w !! k)
    ∧ _ensure_session_async (set__session_created true a, w') =
        (Ok tt, (set__session_created true a, w')).
Proof.
  intros Hok.
  destruct (adapter_ok_inv _ _ Hok) as (Happ & sessions & Hs & Hc).
  eexists. split; [apply (_ensure_session_async_run _ _ _ Hs Hc)|].
  rewrite (session_history_eq _ _ _ Hs).
  unfold sessions_of; simpl. rewrite Hs; simpl.
  split; [by rewrite lookup_insert_eq|].
  split; [intros k Hk; by rewrite lookup_insert_ne|].
  reflexivity.
Qed.




Lemma run_turn_on_silent a w1 w2 message :
  silent w1 = silent w2 →
  (run_turn_on a w1 message).1 = (run_turn_on a w2 message).1
  ∧ (run_turn_on a w1 message).2.1 = (run_turn_on a w2 message).2.1
  ∧ silent (run_turn_on a w1 message).2.2
    = silent (run_turn_on a w2 message).2.2.
Proof.
  destruct w1, w2. unfold silent, set_stdout. simpl. intros [= -> -> -> -> ->].
  unfold run_turn_on, the_turn, session_history, after_turn. simpl.
  by destruct (run_turn _ _ _).
Qed.

Lemma silent_set_event_loop l w1 w2 :
  silent w1 = silent w2 →
  silent (set_event_loop l w1) = silent (set_event_loop l w2).
Proof.
  destruct w1, w2. unfold silent, set_stdout. simpl.
  by intros [= -> -> -> -> ->].
Qed.

(** The image never reaches the runner: apart from what is printed, [chat]
    with any image path, readable or not, does what [chat] without one
    does (the same answer or exception, the same adapter, the same
    sessions and calls). *)
Theorem chat_ignores_image a w message path1 path2 :
  adapter_ok a w = true →
  (chat message path1 (a, w)).1 = (chat message path2 (a, w)).1
  ∧ (chat message path1 (a, w)).2.1 = (chat message path2 (a, w)).2.1
  ∧ silent (chat message path1 (a, w)).2.2
    = silent (chat message path2 (a, w)).2.2.
Proof.
  intros Hok. rewrite !(chat_exact _ _ _ _ Hok). unfold chat_on.
  set (w1 := set_stdout (λ out, (out ++ chat_prelude a path1)%list) w).
  set (w2 := set_stdout (λ out, (out ++ chat_prelude a path2)%list) w).
  assert (silent w1 = silent w2) as Hs by by destruct w.
  destruct (event_loop w).
  - apply run_turn_on_silent. by apply silent_set_event_loop.
  - destruct (run_turn_on_silent a w1 w2 message Hs) as (Hr & Ha & Hw).
    destruct (run_turn_on a w1 message) as [[v1|e1] [a1 w1']];
      destruct (run_turn_on a w2 message) as [[v2|e2] [a2 w2']];
      simpl in *; try done.
    injection Hr as ->. subst a2.
    destruct (is_RuntimeError e2); [|done].
    apply run_turn_on_silent. by apply silent_set_event_loop.
  - destruct (run_turn_on_silent a w1 w2 message Hs) as (Hr & Ha & Hw).
    destruct (run_turn_on a w1 message) as [[v1|e1] [a1 w1']];
      destruct (run_turn_on a w2 message) as [[v2|e2] [a2 w2']];
      simpl in *; try done.
    injection Hr as ->. subst a2.
    destruct (is_RuntimeError e2); [|done].
    apply run_turn_on_silent. by apply silent_set_event_loop.
Qed.

Lemma run_turn_on_other_sessions a w message k :
  k ≠ key_of a →
  sessions_of (run_turn_on a w message).2.2 !! k = sessions_of w !! k.
Proof.
  intros Hk. unfold run_turn_on.
  destruct (the_turn a w message) as [events err]. simpl.
  rewrite sessions_of_after_turn. by rewrite lookup_insert_ne.
Qed.

Lemma chat_sessions_frame a w message image_path k :
  adapter_ok a w = true →
  k ≠ key_of a →
  sessions_of (chat message image_path (a, w)).2.2 !! k = sessions_of w !! k.
Proof.
  intros Hok Hk. rewrite (chat_exact _ _ _ _ Hok). unfold chat_on.
  set (w1 := set_stdout (λ out, (out ++ chat_prelude a image_path)%list) w).
  assert (sessions_of w1 = sessions_of w) as Hs1 by by destruct w.
  destruct (event_loop w).
  - rewrite run_turn_on_other_sessions by done. by destruct w.
  - pose proof (run_turn_on_other_sessions a w1 message k Hk) as H1.
    destruct (run_turn_on a w1 message) as [[v|e] [a' w']] eqn:Hr;
      simpl in *; [by rewrite H1, Hs1|].
    destruct (is_RuntimeError e); simpl; [|by rewrite H1, Hs1].
    assert (a' = set__session_created true a) as ->.
    { unfold run_turn_on in Hr. destruct (the_turn a w1 message).
      by injection Hr as _ <- _. }
    rewrite run_turn_on_other_sessions by done.
    rewrite <- Hs1, <- H1. by destruct w'.
  - pose proof (run_turn_on_other_sessions a w1 message k Hk) as H1.
    destruct (run_turn_on a w1 message) as [[v|e] [a' w']] eqn:Hr;
      simpl in *; [by rewrite H1, Hs1|].
    destruct (is_RuntimeError e); simpl; [|by rewrite H1, Hs1].
    assert (a' = set__session_created true a) as ->.
    { unfold run_turn_on in Hr. destruct (the_turn a w1 message).
      by injection Hr as _ <- _. }
    rewrite run_turn_on_other_sessions by done.
    rewrite <- Hs1, <- H1. by destruct w'.
Qed.

(** [chat] writes to the session of its adapter and to no other: every
    session under another key has after the call the history it had
    before, whatever the turn did, and no session is removed. *)
Theorem chat_other_sessions_untouched a w message image_path k :
  adapter_ok a w = true →
  k ≠ key_of a →
  sessions_of (chat message image_path (a, w)).2.2 !! k = sessions_of w !! k.
Proof.
  intros Hok Hk. by apply chat_sessions_frame.
Qed.


End Behaviour.

(** ** Beyond the stated properties: credentials and construction *)

Lemma find_none {A} (p : A → bool) l :
  Forall (λ x, p x = false) l → List.find p l = None.
Proof.
  induction 1 as [|x l Hx _ IH]; simpl; [done|]. by rewrite Hx.
Qed.

Lemma find_first {A} (p : A → bool) pre x post :
  Forall (λ x, p x = false) pre → p x = true →
  List.find p (pre ++ x :: post) = Some x.
Proof.
  intros Hpre Hx. induction Hpre as [|y pre Hy _ IH]; simpl.
  - by rewrite Hx.
  - by rewrite Hy.
Qed.

(** [_get_project_id] never raises and changes nothing.  It passes over
    every file that cannot be read or parsed, that does not hold an object,
    or whose [type] is not "service_account", and answers with the first
    file that is left: its [project_id] ([None] when it has none) and its
    name.  With no such file the answer is [(None, None)]. *)
Theorem _get_project_id_first_match w :
  (Forall (λ file, is_service_account file.2 = false) (cwd_json w) →
   _get_project_id w = (Ok (JNull, None), w))
  ∧ (∀ pre f members post,
       cwd_json w = (pre ++ (f, Ok (JObj members)) :: post)%list →
       Forall (λ file, is_service_account file.2 = false) pre →
       member "type" members = Some (JStr "service_account") →
       _get_project_id w =
         (Ok (default JNull (member "project_id" members), Some f), w)).
Proof.
  split.
  - intros Hnone. rewrite _get_project_id_run.
    unfold first_project_id, first_sa_file, first_service_account.
    by rewrite (find_none _ _ Hnone).
  - intros pre f members post Hfiles Hpre Hty.
    rewrite _get_project_id_run, Hfiles.
    unfold first_project_id, first_sa_file, first_service_account.
    rewrite (find_first _ pre (f, Ok (JObj members)) post); [done|done|].
    simpl. by rewrite Hty.
Qed.

Lemma _get_project_id_first_match_witness :
  cwd_json (fresh_process
              [("broken.json", Raise (OtherError "JSONDecodeError"));
               ("list.json", Ok (JArr [JStr "service_account"]));
               ("package.json", Ok (JObj [("type", JStr "module")]));
               ("key.json", service_account_file (JStr "demo"));
               ("other.json", service_account_file (JStr "second"))])
  = ([("broken.json", Raise (OtherError "JSONDecodeError"));
      ("list.json", Ok (JArr [JStr "service_account"]));
      ("package.json", Ok (JObj [("type", JStr "module")]))]
     ++ ("key.json",
         Ok (JObj [("type", JStr "service_account");
                   ("project_id", JStr "demo")]))
     :: [("other.json", service_account_file (JStr "second"))])%list
  ∧ _get_project_id
      (fresh_process
         [("broken.json", Raise (OtherError "JSONDecodeError"));
          ("list.json", Ok (JArr [JStr "service_account"]));
          ("package.json", Ok (JObj [("type", JStr "module")]));
          ("key.json", service_account_file (JStr "demo"));
          ("other.json", service_account_file (JStr "second"))])
    = (Ok (JStr "demo", Some "key.json"),
       fresh_process
         [("broken.json", Raise (OtherError "JSONDecodeError"));
          ("list.json", Ok (JArr [JStr "service_account"]));
          ("package.json", Ok (JObj [("type", JStr "module")]));
          ("key.json", service_account_file (JStr "demo"));
          ("other.json", service_account_file (JStr "second"))]).
Proof.
  split; [reflexivity|].
  apply (proj2 (_get_project_id_first_match _)
           [("broken.json", Raise (OtherError "JSONDecodeError"));
            ("list.json", Ok (JArr [JStr "service_account"]));
            ("package.json", Ok (JObj [("type", JStr "module")]))]
           "key.json"
           [("type", JStr "service_account"); ("project_id", JStr "demo")]
           [("other.json", service_account_file (JStr "second"))]).
  - reflexivity.
  - repeat constructor.
  - reflexivity.
Defined.

Lemma _setup_vertex_auth_ok_run w s :
  first_project_id (cwd_json w) = JStr s → s ≠ "" →
  _setup_vertex_auth w =
    let w1 :=
      match first_sa_file (cwd_json w) with
      | Some (String _ _ as f) =>
          set_environ (insert "GOOGLE_APPLICATION_CREDENTIALS" f) w
      | _ => w
      end in
    let location :=
      default "us-central1" (environ w1 !! "GOOGLE_CLOUD_LOCATION") in
    (Ok (s, location),
     set_stdout
       (λ out,
          (out ++
           [("🔌 Connecting to Vertex AI (Project: " ++ s ++ ", Loc: " ++
             location ++ ")...")%string;
            ("🔑 Using credentials: " ++
             default "None" (first_sa_file (cwd_json w)))%string])%list)
       (set_environ
          (λ e, <["GOOGLE_CLOUD_LOCATION" := location]>
                  (<["GOOGLE_CLOUD_PROJECT" := s]>
                     (<["GOOGLE_GENAI_USE_VERTEXAI" := "true"]> e)))
          w1)).
Proof.
  intros Hp Hs. unfold _setup_vertex_auth. run.
  rewrite _get_project_id_run, Hp. simpl.
  assert (String.eqb s "" = false) as -> by by apply String.eqb_neq.
  simpl. unfold setenv, getenv, print. run.
  destruct (first_sa_file (cwd_json w)) as [[|c f]|]; simpl;
    destruct w; unfold set_stdout, set_environ; simpl;
    by rewrite <- app_assoc.
Qed.

Lemma setup_ok_frame w s :
  first_project_id (cwd_json w) = JStr s → s ≠ "" →
  ∃ w',
    _setup_vertex_auth w =
      (Ok (s, default "us-central1" (environ w !! "GOOGLE_CLOUD_LOCATION")),
       w')
    ∧ cwd_json w' = cwd_json w
    ∧ _session_service w' = _session_service w
    ∧ runner_calls w' = runner_calls w.
Proof.
  intros Hp Hs. rewrite (_setup_vertex_auth_ok_run w s Hp Hs).
  destruct (first_sa_file (cwd_json w)) as [[|c f]|]; simpl;
    rewrite ?lookup_insert_ne by done; eauto.
Qed.



Lemma setup_ok_inv w r w' :
  _setup_vertex_auth w = (Ok r, w') →
  ∃ s, first_project_id (cwd_json w) = JStr s ∧ s ≠ "".
Proof.
  intros Hrun.
  destruct (truthy (first_project_id (cwd_json w))) eqn:Ht.
  - destruct (first_project_id (cwd_json w)) as [| | |s| |] eqn:Hp;
      try (destruct (_setup_vertex_auth_not_str w) as [w1 Hw1];
           [by rewrite Hp|by rewrite Hp|]; rewrite Hw1 in Hrun; discriminate).
    exists s. split; [done|]. simpl in Ht. by intros ->.
  - rewrite (_setup_vertex_auth_falsy _ Ht) in Hrun. discriminate.
Qed.

(** Resolving the credentials again, as each further adapter does, is
    harmless: after one success a second run succeeds with the same project
    and location and leaves the environment exactly as the first left it. *)
Theorem _setup_vertex_auth_again w r w' :
  _setup_vertex_auth w = (Ok r, w') →
  ∃ w'',
    _setup_vertex_auth w' = (Ok r, w'')
    ∧ environ w'' = environ w'
    ∧ _session_service w'' = _session_service w'.
Proof.
  intros Hrun. destruct (setup_ok_inv _ _ _ Hrun) as (s & Hp & Hs).
  rewrite (_setup_vertex_auth_ok_run w s Hp Hs) in Hrun.
  assert (cwd_json w' = cwd_json w) as Hcwd.
  { injection Hrun as _ <-.
    by destruct (first_sa_file (cwd_json w)) as [[|c f]|]. }
  assert (first_project_id (cwd_json w') = JStr s) as Hp'
    by by rewrite Hcwd.
  rewrite (_setup_vertex_auth_ok_run w' s Hp' Hs). rewrite Hcwd.
  destruct (first_sa_file (cwd_json w)) as [[|c f]|] eqn:Hf;
    injection Hrun as <- <-; simpl;
    (eexists; split;
     [ do 2 f_equal; by simplify_map_eq
     | split; [|done]; simpl;
       by rewrite !insert_id by by simplify_map_eq ]).
Qed.

Lemma _setup_vertex_auth_again_witness :
  _setup_vertex_auth
    (fresh_process [("key.json", service_account_file (JStr "demo"))])
  = (Ok ("demo", "us-central1"), set_session_service None started_process)
  ∧ ∃ w'',
      _setup_vertex_auth (set_session_service None started_process)
      = (Ok ("demo", "us-central1"), w'')
      ∧ environ w'' = environ (set_session_service None started_process)
      ∧ _session_service w'' =
          _session_service (set_session_service None started_process).
Proof.
  assert (_setup_vertex_auth
            (fresh_process [("key.json", service_account_file (JStr "demo"))])
          = (Ok ("demo", "us-central1"),
             set_session_service None started_process)) as Hrun
    by (vm_compute; reflexivity).
  split; [exact Hrun|].
  exact (_setup_vertex_auth_again _ _ _ Hrun).
Defined.

(** A [project_id] that is there but is not a string (a number, say) gets
    past the test for a missing file and fails at the environment: the
    call raises a [TypeError] after it has switched the process to Vertex,
    and before it set the project. *)
Theorem _setup_vertex_auth_non_string_project w :
  truthy (first_project_id (cwd_json w)) = true →
  (∀ s, first_project_id (cwd_json w) ≠ JStr s) →
  ∃ msg w',
    _setup_vertex_auth w = (Raise (TypeError msg), w')
    ∧ environ w' !! "GOOGLE_GENAI_USE_VERTEXAI" = Some "true"
    ∧ environ w' !! "GOOGLE_CLOUD_PROJECT" =
        environ w !! "GOOGLE_CLOUD_PROJECT"
    ∧ stdout w' = stdout w.
Proof.
  intros Ht Hn. unfold _setup_vertex_auth. run.
  rewrite _get_project_id_run, Ht. simpl.
  unfold setenv, getenv, print. run.
  destruct (first_project_id (cwd_json w)) as [| | |s| |]; try done;
    try (by destruct (Hn s));
    destruct (first_sa_file (cwd_json w)) as [[|c f]|]; simpl;
    (do 2 eexists; split; [reflexivity|]; simpl;
     repeat split; by simplify_map_eq).
Qed.

Lemma _setup_vertex_auth_non_string_project_witness :
  truthy (first_project_id
            (cwd_json (fresh_process
                         [("key.json", service_account_file (JNum 12345))])))
  = true
  ∧ (∀ s, first_project_id
            (cwd_json (fresh_process
                         [("key.json", service_account_file (JNum 12345))]))
          ≠ JStr s)
  ∧ ∃ msg w',
      _setup_vertex_auth
        (fresh_process [("key.json", service_account_file (JNum 12345))])
      = (Raise (TypeError msg), w')
      ∧ environ w' !! "GOOGLE_GENAI_USE_VERTEXAI" = Some "true"
      ∧ environ w' !! "GOOGLE_CLOUD_PROJECT" =
          environ (fresh_process
                     [("key.json", service_account_file (JNum 12345))])
          !! "GOOGLE_CLOUD_PROJECT"
      ∧ stdout w' =
          stdout (fresh_process
                    [("key.json", service_account_file (JNum 12345))]).
Proof.
  assert (∀ s, first_project_id
            (cwd_json (fresh_process
                         [("key.json", service_account_file (JNum 12345))]))
          ≠ JStr s) as Hn by (intros s; discriminate).
  split; [reflexivity|]. split; [exact Hn|].
  exact (_setup_vertex_auth_non_string_project
           (fresh_process [("key.json", service_account_file (JNum 12345))])
           eq_refl Hn).
Defined.

Lemma init_facts self_id name model instruction tools w a w' :
  __init__ self_id name model instruction tools w = (Ok a, w') →
  sessions_of w' = sessions_of w
  ∧ is_Some (_session_service w')
  ∧ runner_calls w' = runner_calls w
  ∧ _session_created a = false
  ∧ key_of a =
      (_app_name, "user_" ++ name,
       "session_" ++ name ++ "_" ++ str_of_int self_id)
  ∧ Utils.tools a = default [] tools.
Proof.
  rewrite __init___run.
  destruct (_setup_vertex_auth w) as [[r|e] w1] eqn:Hrun; [|done].
  intros [= <- <-].
  destruct (setup_ok_inv _ _ _ Hrun) as (s & Hp & Hs).
  destruct (setup_ok_frame w s Hp Hs)
    as (w1' & Hrun' & _ & Hserv & Hcalls).
  rewrite Hrun in Hrun'. injection Hrun' as _ <-.
  unfold sessions_of. rewrite <- Hserv.
  destruct (_session_service w1) eqn:Hs1; simpl; rewrite ?Hs1; eauto 10.
Qed.

(** Construction creates the session service once, empty, and otherwise
    leaves the registry alone: the sessions are the same after it as
    before, the runner is not called and no session is created for the new
    adapter, whose keys are derived from its name and its identity. *)
Theorem __init___leaves_sessions self_id name model instruction tools w a w' :
  __init__ self_id name model instruction tools w = (Ok a, w') →
  sessions_of w' = sessions_of w
  ∧ is_Some (_session_service w')
  ∧ runner_calls w' = runner_calls w
  ∧ _session_created a = false
  ∧ key_of a =
      (_app_name, "user_" ++ name,
       "session_" ++ name ++ "_" ++ str_of_int self_id)
  ∧ Utils.tools a = default [] tools.
Proof.
  intros Hrun. by apply (init_facts self_id name model instruction tools w).
Qed.

Lemma __init___leaves_sessions_witness :
  __init__ 140234 "ProfileBot" "gemini-2.0-flash" "You are ProfileBot."
    (Some ["save_branch"; "save_skills"; "save_project"; "get_profile"])
    (fresh_process [("key.json", service_account_file (JStr "demo"))])
  = (Ok profile_bot, started_process)
  ∧ sessions_of started_process =
      sessions_of
        (fresh_process [("key.json", service_account_file (JStr "demo"))])
  ∧ is_Some (_session_service started_process)
  ∧ runner_calls started_process =
      runner_calls
        (fresh_process [("key.json", service_account_file (JStr "demo"))])
  ∧ _session_created profile_bot = false
  ∧ key_of profile_bot =
      (_app_name, "user_" ++ "ProfileBot",
       "session_" ++ "ProfileBot" ++ "_" ++ str_of_int 140234)
  ∧ Utils.tools profile_bot =
      default []
        (Some ["save_branch"; "save_skills"; "save_project"; "get_profile"]).
Proof.
  split; [exact profile_bot_constructed|].
  exact (__init___leaves_sessions _ _ _ _ _ _ _ _ profile_bot_constructed).
Defined.

Lemma to_int_not_nil n :
  Z.to_int n ≠ Decimal.Pos Decimal.Nil ∧ Z.to_int n ≠ Decimal.Neg Decimal.Nil.
Proof.
  pose proof (DecimalZ.to_of (Z.to_int n)) as Hn.
  rewrite DecimalZ.of_to in Hn.
  split; intros Heq; rewrite Heq in Hn; discriminate Hn.
Qed.

Lemma str_of_int_inj n n' : str_of_int n = str_of_int n' → n = n'.
Proof.
  unfold str_of_int. intros Heq.
  apply DecimalZ.to_int_inj.
  destruct (to_int_not_nil n) as [Hp Hn].
  destruct (to_int_not_nil n') as [Hp' Hn'].
  pose proof (NilZero.isi _ Hp Hn) as H1.
  pose proof (NilZero.isi _ Hp' Hn') as H2.
  rewrite Heq in H1. rewrite H1 in H2. by injection H2.
Qed.

Lemma string_app_inv_head (s t u : string) : s ++ t = s ++ u → t = u.
Proof.
  induction s as [|c s IH]; [done|].
  change (String c (s ++ t) = String c (s ++ u) → t = u).
  intros [= Heq]. by apply IH.
Qed.

Lemma init_keys_distinct
    id1 name1 model1 instruction1 tools1 w1 a1 w1'
    id2 name2 model2 instruction2 tools2 w2 a2 w2' :
  __init__ id1 name1 model1 instruction1 tools1 w1 = (Ok a1, w1') →
  __init__ id2 name2 model2 instruction2 tools2 w2 = (Ok a2, w2') →
  name1 ≠ name2 ∨ id1 ≠ id2 →
  key_of a1 ≠ key_of a2.
Proof.
  intros H1 H2 Hdiff.
  destruct (init_facts _ _ _ _ _ _ _ _ H1)
    as (_ & _ & _ & _ & -> & _).
  destruct (init_facts _ _ _ _ _ _ _ _ H2)
    as (_ & _ & _ & _ & -> & _).
  intros [= Huser Hsession].
  apply string_app_inv_head in Huser. subst name2.
  destruct Hdiff as [?|Hid]; [done|]. apply Hid.
  do 3 apply string_app_inv_head in Hsession.
  by apply str_of_int_inj.
Qed.

(** Two adapters never share a session key when their names differ or
    when the interpreter gave them different identities: the user part of
    the key tells names apart, the session part tells identities apart. *)
Theorem constructed_keys_distinct
    id1 name1 model1 instruction1 tools1 w1 a1 w1'
    id2 name2 model2 instruction2 tools2 w2 a2 w2' :
  __init__ id1 name1 model1 instruction1 tools1 w1 = (Ok a1, w1') →
  __init__ id2 name2 model2 instruction2 tools2 w2 = (Ok a2, w2') →
  name1 ≠ name2 ∨ id1 ≠ id2 →
  key_of a1 ≠ key_of a2.
Proof.
  intros H1 H2 Hdiff.
  by apply (init_keys_distinct _ _ _ _ _ _ _ _ _ _ _ _ _ _ _ _ H1 H2).
Qed.

(** ** The theorems of this part at ProfileBot *)

Lemma ensure_session_keeps_history_witness :
  adapter_ok profile_bot started_process = true
  ∧ ∃ w',
      _ensure_session_async (profile_bot, started_process) =
        (Ok tt, (set__session_created true profile_bot, w'))
      ∧ sessions_of w' !! key_of profile_bot =
          Some (session_history profile_bot started_process)
      ∧ (∀ k, k ≠ key_of profile_bot →
           sessions_of w' !! k = sessions_of started_process !! k)
      ∧ _ensure_session_async (set__session_created true profile_bot, w') =
          (Ok tt, (set__session_created true profile_bot, w')).
Proof.
  split; [reflexivity|].
  apply (ensure_session_keeps_history profile_bot started_process).
  reflexivity.
Defined.




Lemma chat_ignores_image_witness :
  adapter_ok profile_bot started_process = true
  ∧ (@chat (scripted two_answers_stream) "hello" (Some "photo.png")
       (profile_bot, started_process)).1
    = (@chat (scripted two_answers_stream) "hello" None
         (profile_bot, started_process)).1
  ∧ (@chat (scripted two_answers_stream) "hello" (Some "photo.png")
       (profile_bot, started_process)).2.1
    = (@chat (scripted two_answers_stream) "hello" None
         (profile_bot, started_process)).2.1
  ∧ silent (@chat (scripted two_answers_stream) "hello" (Some "photo.png")
              (profile_bot, started_process)).2.2
    = silent (@chat (scripted two_answers_stream) "hello" None
                (profile_bot, started_process)).2.2.
Proof.
  split; [reflexivity|].
  apply (@chat_ignores_image (scripted two_answers_stream) profile_bot
           started_process "hello" (Some "photo.png") None).
  reflexivity.
Defined.

Lemma chat_other_sessions_untouched_witness :
  adapter_ok profile_bot started_process = true
  ∧ (_app_name, "user_CoachBot", "session_CoachBot_140500")
    ≠ key_of profile_bot
  ∧ sessions_of
      (@chat (scripted two_answers_stream) "hello" None
         (profile_bot, started_process)).2.2
    !! (_app_name, "user_CoachBot", "session_CoachBot_140500")
    = sessions_of started_process
      !! (_app_name, "user_CoachBot", "session_CoachBot_140500").
Proof.
  assert ((_app_name, "user_CoachBot", "session_CoachBot_140500")
          ≠ key_of profile_bot) as Hk by discriminate.
  split; [reflexivity|]. split; [exact Hk|].
  exact (@chat_other_sessions_untouched (scripted two_answers_stream)
           profile_bot started_process "hello" None _ eq_refl Hk).
Defined.


Example profile_bot_again_constructed :
  __init__ 140300 "ProfileBot" "gemini-2.0-flash" "You are ProfileBot." None
    started_process =
  (Ok profile_bot_again,
   set_stdout
     (λ out,
        (out ++
         ["🔌 Connecting to Vertex AI (Project: demo, Loc: us-central1)...";
          "🔑 Using credentials: key.json"])%list)
     started_process).
Proof. vm_compute. reflexivity. Qed.

Lemma constructed_keys_distinct_witness :
  ("ProfileBot" ≠ "ProfileBot" ∨ 140234%Z ≠ 140300%Z)
  ∧ key_of profile_bot ≠ key_of profile_bot_again.
Proof.
  assert ("ProfileBot" ≠ "ProfileBot" ∨ 140234%Z ≠ 140300%Z) as Hdiff
    by (right; discriminate).
  split; [exact Hdiff|].
  exact (constructed_keys_distinct _ _ _ _ _ _ _ _ _ _ _ _ _ _ _ _
           profile_bot_constructed profile_bot_again_constructed Hdiff).
Defined.

End UtilsSpec.

(* ===================================================================== *)
(** * The three agents of the application *)
(* ===================================================================== *)

Module AgentsSpec.
Import Py Utils UtilsSpec.

#[local] Arguments String.eqb : simpl never.



Lemma get_agents_keys id1 id2 id3 w p r c w' :
  App.get_agents id1 id2 id3 w = (Ok (p, r, c), w') →
  key_of p ≠ key_of r ∧ key_of p ≠ key_of c ∧ key_of r ≠ key_of c.
Proof.
  intros Hget. unfold App.get_agents in Hget.
  unfold mbind, mret, M_bind, M_ret, bind, ret in Hget.
  destruct (__init__ id1 _ _ _ _ w) as [[p0|e] wp] eqn:Hp;
    [|discriminate Hget].
  destruct (__init__ id2 _ _ _ _ wp) as [[r0|e] wr] eqn:Hr;
    [|discriminate Hget].
  destruct (__init__ id3 _ _ _ _ wr) as [[c0|e] wc] eqn:Hc;
    [|discriminate Hget].
  injection Hget as <- <- <- <-.
  assert ("ProfileBot" ≠ "ReviewerBot") as N1 by discriminate.
  assert ("ProfileBot" ≠ "CoachBot") as N2 by discriminate.
  assert ("ReviewerBot" ≠ "CoachBot") as N3 by discriminate.
  split; [|split].
  - exact (init_keys_distinct _ _ _ _ _ _ _ _ _ _ _ _ _ _ _ _
             Hp Hr (or_introl N1)).
  - exact (init_keys_distinct _ _ _ _ _ _ _ _ _ _ _ _ _ _ _ _
             Hp Hc (or_introl N2)).
  - exact (init_keys_distinct _ _ _ _ _ _ _ _ _ _ _ _ _ _ _ _
             Hr Hc (or_introl N3)).
Qed.



Section Apart.
Context `{External}.

(** The three agents keep their conversations apart: a [chat] with one of
    them, whatever its turn does, leaves the history of each of the other
    two as it was. *)
Theorem get_agents_histories_apart id1 id2 id3 w p r c w' speaker other
    w1 message image_path :
  App.get_agents id1 id2 id3 w = (Ok (p, r, c), w') →
  (speaker, other) ∈ [(p, r); (p, c); (r, p); (r, c); (c, p); (c, r)] →
  adapter_ok speaker w1 = true →
  session_history other (chat message image_path (speaker, w1)).2.2 =
    session_history other w1.
Proof.
  intros Hget Hpair Hok.
  destruct (get_agents_keys _ _ _ _ _ _ _ _ Hget) as (Hpr & Hpc & Hrc).
  assert (key_of other ≠ key_of speaker) as Hne.
  { apply elem_of_cons in Hpair as [Heq|Hpair];
      [injection Heq as -> ->; exact (not_eq_sym Hpr)|].
    apply elem_of_cons in Hpair as [Heq|Hpair];
      [injection Heq as -> ->; exact (not_eq_sym Hpc)|].
    apply elem_of_cons in Hpair as [Heq|Hpair];
      [injection Heq as -> ->; exact Hpr|].
    apply elem_of_cons in Hpair as [Heq|Hpair];
      [injection Heq as -> ->; exact (not_eq_sym Hrc)|].
    apply elem_of_cons in Hpair as [Heq|Hpair];
      [injection Heq as -> ->; exact Hpc|].
    apply elem_of_cons in Hpair as [Heq|Hpair];
      [injection Heq as -> ->; exact Hrc|].
    exfalso. exact (proj1 (elem_of_nil _) Hpair). }
  rewrite !session_history_sessions_of.
  by rewrite (chat_sessions_frame speaker w1 message image_path
                (key_of other) Hok Hne).
Qed.

End Apart.

Lemma get_agents_histories_apart_witness :
  App.get_agents 140234 140300 140366
    (fresh_process [("key.json", service_account_file (JStr "demo"))])
  = (Ok (App.built_profile_bot, App.built_reviewer_bot, App.built_coach_bot),
     App.agents_built.2)
  ∧ ((App.built_reviewer_bot, App.built_profile_bot)
     ∈ [(App.built_profile_bot, App.built_reviewer_bot);
        (App.built_profile_bot, App.built_coach_bot);
        (App.built_reviewer_bot, App.built_profile_bot);
        (App.built_reviewer_bot, App.built_coach_bot);
        (App.built_coach_bot, App.built_profile_bot);
        (App.built_coach_bot, App.built_reviewer_bot)])
  ∧ adapter_ok App.built_reviewer_bot App.agents_built.2 = true
  ∧ session_history App.built_profile_bot
      (@chat (scripted two_answers_stream) "is python in demand?" None
         (App.built_reviewer_bot, App.agents_built.2)).2.2
    = session_history App.built_profile_bot App.agents_built.2.
Proof.
  assert (App.get_agents 140234 140300 140366
            (fresh_process [("key.json", service_account_file (JStr "demo"))])
          = (Ok (App.built_profile_bot, App.built_reviewer_bot,
                 App.built_coach_bot), App.agents_built.2)) as Hget
    by (vm_compute; reflexivity).
  assert ((App.built_reviewer_bot, App.built_profile_bot)
     ∈ [(App.built_profile_bot, App.built_reviewer_bot);
        (App.built_profile_bot, App.built_coach_bot);
        (App.built_reviewer_bot, App.built_profile_bot);
        (App.built_reviewer_bot, App.built_coach_bot);
        (App.built_coach_bot, App.built_profile_bot);
        (App.built_coach_bot, App.built_reviewer_bot)]) as Hin
    by (do 2 (apply elem_of_cons; right); apply elem_of_cons; left;
        reflexivity).
  assert (adapter_ok App.built_reviewer_bot App.agents_built.2 = true) as Hok
    by (vm_compute; reflexivity).
  split; [exact Hget|]. split; [exact Hin|]. split; [exact Hok|].
  exact (@get_agents_histories_apart (scripted two_answers_stream)
           _ _ _ _ _ _ _ _ _ _ _ "is python in demand?" None Hget Hin Hok).
Defined.

End AgentsSpec.
